(** * Rule-based fraud screening: the scoring API and the batch dashboard

    A shallow embedding of [fraud_detection_api.py] and
    [fraud_detection_app.py].  The two programs share the shape of their
    data ([Transaction], [FraudRule]) and of their evaluation loop, and
    differ in a few rule conditions; each lives in a module of its own
    ([Api], [App]) on top of a common model of the Python values they
    manipulate ([datetime], [timedelta], the wall clock, exceptions). *)

From Stdlib Require Import ZArith Floats Ascii String.
From stdpp Require Import base tactics option list strings gmap.

Open Scope string_scope.
Open Scope Z_scope.

(** ** Python's [datetime] module, as far as the rules use it *)

Module Py.

(** [datetime.date]: proleptic Gregorian calendar. *)
Record date := mkdate { year : Z; month : Z; day : Z }.

(** [datetime.time], always naive here: the rules obtain it through
    [datetime.time()], which drops the time zone. *)
Record time := mktime { hour : Z; minute : Z; second : Z; microsecond : Z }.

(** [datetime.timedelta] in its normal form: any number of days,
    [0 <= seconds < 86400], [0 <= microseconds < 1000000]. *)
Record timedelta := mktimedelta { days : Z; seconds : Z; microseconds : Z }.

(** [datetime.datetime].  [tzinfo] is [None] for a naive value and carries
    the fixed UTC offset of an aware one. *)
Record datetime := mkdatetime {
  dt_date : date;
  dt_time : time;
  tzinfo : option timedelta
}.

Definition naive (d : date) (t : time) : datetime := mkdatetime d t None.

Definition _is_leap (y : Z) : bool :=
  (y mod 4 =? 0) && (negb (y mod 100 =? 0) || (y mod 400 =? 0)).

Definition _days_before_year (y : Z) : Z :=
  let y := y - 1 in y * 365 + y / 4 - y / 100 + y / 400.

(** The table [_DAYS_BEFORE_MONTH], indexed by month number. *)
Definition _DAYS_BEFORE_MONTH (m : Z) : Z :=
  match m with
  | 1 => 0 | 2 => 31 | 3 => 59 | 4 => 90 | 5 => 120 | 6 => 151
  | 7 => 181 | 8 => 212 | 9 => 243 | 10 => 273 | 11 => 304 | 12 => 334
  | _ => -1
  end.

Definition _days_before_month (y m : Z) : Z :=
  _DAYS_BEFORE_MONTH m + (if (2 <? m) && _is_leap y then 1 else 0).

Definition _ymd2ord (y m d : Z) : Z :=
  _days_before_year y + _days_before_month y m + d.

Definition toordinal (d : date) : Z := _ymd2ord (year d) (month d) (day d).

(** [date.weekday()]: Monday is 0, Saturday is 5, Sunday is 6. *)
Definition weekday (d : date) : Z := (toordinal d + 6) mod 7.

(** Comparison of naive times is comparison of the tuples
    [(hour, minute, second, microsecond)]. *)
Definition time_cmp (a b : time) : comparison :=
  match hour a ?= hour b with
  | Eq => match minute a ?= minute b with
          | Eq => match second a ?= second b with
                  | Eq => microsecond a ?= microsecond b
                  | c => c
                  end
          | c => c
          end
  | c => c
  end.

Definition time_le (a b : time) : bool :=
  match time_cmp a b with Gt => false | _ => true end.

(** [timedelta(days, seconds, microseconds)] on integers: the carries of
    the constructor, in its order. *)
Definition timedelta_new (d s us : Z) : timedelta :=
  let d := d + s / 86400 in
  let s := s mod 86400 in
  let s2 := us / 1000000 in
  let us := us mod 1000000 in
  let d := d + s2 / 86400 in
  let s := s + s2 mod 86400 in
  let s := s + us / 1000000 in
  let us := us mod 1000000 in
  let d := d + s / 86400 in
  let s := s mod 86400 in
  mktimedelta d s us.

Definition timedelta_add (a b : timedelta) : timedelta :=
  timedelta_new (days a + days b) (seconds a + seconds b)
                (microseconds a + microseconds b).

Definition timedelta_sub (a b : timedelta) : timedelta :=
  timedelta_new (days a - days b) (seconds a - seconds b)
                (microseconds a - microseconds b).

Definition secs_of (t : time) : Z := second t + minute t * 60 + hour t * 3600.

(** [date] and [time] objects always hold values in range; the records
    above do not enforce it, the predicates [valid_date], [valid_time] and
    [valid_datetime] say it. *)
Definition _days_in_month (y m : Z) : Z :=
  match m with
  | 2 => if _is_leap y then 29 else 28
  | 4 | 6 | 9 | 11 => 30
  | _ => 31
  end.

Definition valid_date (d : date) : bool :=
  (1 <=? month d) && (month d <=? 12) &&
  (1 <=? day d) && (day d <=? _days_in_month (year d) (month d)).

Definition valid_time (t : time) : bool :=
  (0 <=? hour t) && (hour t <? 24) && (0 <=? minute t) && (minute t <? 60) &&
  (0 <=? second t) && (second t <? 60) &&
  (0 <=? microsecond t) && (microsecond t <? 1000000).

Definition valid_datetime (d : datetime) : bool :=
  valid_date (dt_date d) && valid_time (dt_time d).

End Py.

(** ** Exceptions, the wall clock and the evaluation monad *)

Inductive exn := TypeError (msg : string).

Inductive result (A : Type) := Ok (a : A) | Raise (e : exn).
Arguments Ok {A} a.
Arguments Raise {A} e.

(** The only ambient state the programs read is the system clock.  Its
    [k]-th reading is [clock k]; [reads] counts the readings taken so far.
    [datetime.now()] returns a naive local time. *)
Record world := mkworld { clock : nat -> Py.date * Py.time; reads : nat }.

Definition M (A : Type) : Type := world -> result A * world.

#[global] Instance M_ret : MRet M := fun A a w => (Ok a, w).
#[global] Instance M_bind : MBind M := fun A B f m w =>
  match m w with
  | (Ok a, w') => f a w'
  | (Raise e, w') => (Raise e, w')
  end.

(** A computation that touches nothing: it returns or raises. *)
Definition lift {A} (r : result A) : M A := fun w => (r, w).

Definition current_time (w : world) : Py.datetime :=
  Py.naive (fst (clock w (reads w))) (snd (clock w (reads w))).

Definition datetime_now : M Py.datetime := fun w =>
  (Ok (current_time w), mkworld (clock w) (S (reads w))).

(** [datetime.__sub__] on two datetimes: the difference of two naive
    values, or of two aware values brought to UTC; mixing the two kinds
    raises. *)
Definition datetime_sub (self other : Py.datetime) : result Py.timedelta :=
  let base := Py.timedelta_new
    (Py.toordinal (Py.dt_date self) - Py.toordinal (Py.dt_date other))
    (Py.secs_of (Py.dt_time self) - Py.secs_of (Py.dt_time other))
    (Py.microsecond (Py.dt_time self) - Py.microsecond (Py.dt_time other)) in
  match Py.tzinfo self, Py.tzinfo other with
  | None, None => Ok base
  | Some myoff, Some otoff =>
      Ok (Py.timedelta_sub (Py.timedelta_add base otoff) myoff)
  | _, _ => Raise (TypeError "can't subtract offset-naive and offset-aware datetimes")
  end.

(** Microseconds from the calendar's origin to a naive value. *)
Definition instant (d : Py.datetime) : Z :=
  Py.toordinal (Py.dt_date d) * 86400000000
  + Py.secs_of (Py.dt_time d) * 1000000 + Py.microsecond (Py.dt_time d).

(** Microseconds since midnight. *)
Definition time_of_day (t : Py.time) : Z :=
  Py.secs_of t * 1000000 + Py.microsecond t.

(** The naive part of a datetime as the tuple Python compares. *)
Definition cmp_fields (d : Py.datetime) : list Z :=
  [Py.year (Py.dt_date d); Py.month (Py.dt_date d); Py.day (Py.dt_date d);
   Py.hour (Py.dt_time d); Py.minute (Py.dt_time d); Py.second (Py.dt_time d);
   Py.microsecond (Py.dt_time d)].

Fixpoint lex_cmp (a b : list Z) : comparison :=
  match a, b with
  | [], [] => Eq
  | [], _ => Lt
  | _, [] => Gt
  | x :: a, y :: b => match x ?= y with Eq => lex_cmp a b | c => c end
  end.

(** [self < other] on datetimes.  Two naive values compare field by field;
    two aware values compare as instants; a naive and an aware value do
    not compare. *)
Definition datetime_lt (self other : Py.datetime) : result bool :=
  match Py.tzinfo self, Py.tzinfo other with
  | None, None =>
      Ok (match lex_cmp (cmp_fields self) (cmp_fields other) with
          | Lt => true | _ => false end)
  | Some _, Some _ =>
      match datetime_sub self other with
      | Ok d => Ok (Py.days d <? 0)
      | Raise e => Raise e
      end
  | _, _ => Raise (TypeError "can't compare offset-naive and offset-aware datetimes")
  end.

(** ** Rules and the evaluation loop, common to both programs *)

(** [class FraudRule].  A condition is a Python callable on a transaction:
    it may read the clock and it may raise. *)
Record FraudRule (T : Type) := mkFraudRule {
  rule_id : string;
  description : string;
  action : string;
  condition : T -> M bool
}.
Arguments mkFraudRule {T} _ _ _ _.
Arguments rule_id {T} _.
Arguments description {T} _.
Arguments action {T} _.
Arguments condition {T} _ _.

(** One element of a result list: the dict
    [{"action": action, "reason": description}]. *)
Record entry := mkentry { e_action : string; e_reason : string }.

(** [FraudRule.evaluate]: [(action, description)] when the condition holds,
    [(None, None)] (here [None]) otherwise. *)
Definition evaluate {T} (r : FraudRule T) (transaction : T)
  : M (option (string * string)) :=
  b ← condition r transaction;
  if b : bool then mret (Some (action r, description r)) else mret None.

(** Truth value of the [action] component: [None] and the empty string
    are false. *)
Definition truthy (o : option (string * string)) : bool :=
  match o with
  | Some (a, _) => negb (String.eqb a "")
  | None => false
  end.

(** The loop [for rule in rules: ...; if action: acc.append({...})],
    started from the list [acc]. *)
Fixpoint apply_rules {T} (rules : list (FraudRule T)) (transaction : T)
    (acc : list entry) : M (list entry) :=
  match rules with
  | [] => mret acc
  | rule :: rest =>
      o ← evaluate rule transaction;
      match o with
      | Some (a, d) =>
          if truthy o then apply_rules rest transaction (acc ++ [mkentry a d])%list
          else apply_rules rest transaction acc
      | None => apply_rules rest transaction acc
      end
  end.

(** A rule matches in world [w] when its condition returns [True] there. *)
Definition matched {T} (r : FraudRule T) (t : T) (w : world) : bool :=
  match fst (condition r t w) with Ok true => true | _ => false end.

Definition entry_of {T} (r : FraudRule T) : entry :=
  mkentry (action r) (description r).

(** The matches of a list of rules, in the order of the list. *)
Definition selected {T} (rules : list (FraudRule T)) (t : T) (w : world)
  : list entry :=
  map entry_of (List.filter (fun r => matched r t w) rules).

(** The world after one reading of the clock. *)
Definition tick (w : world) : world := mkworld (clock w) (S (reads w)).

(** What one evaluated rule adds to the result list. *)
Definition contribution {T} (r : FraudRule T) (b : bool) : list entry :=
  if b && negb (String.eqb (action r) "") then [entry_of r] else [].

(** A rule whose condition neither reads the clock nor raises. *)
Definition pure_rule {T} (r : FraudRule T) (f : T -> bool) : Prop :=
  forall t w, condition r t w = (Ok (f t), w).

(** ** Request validation *)

(** The models are pydantic [BaseModel]s: a field declared without a
    default is required, every field is converted to its declared type,
    and all failures are reported together, in declaration order.
    Requests are decoded JSON objects or spreadsheet rows; a value is one
    of the following.  The conversions below accept the standard spelling
    of each type, which the library accepts too; the further spellings it
    converts leniently (a number in a string, 0 and 1 for booleans, a
    timestamp as a number, a shorter timestamp, ...) are left out and
    count as ill-typed here.  So a success of [validate] is a success of
    the model, while a type error of [validate] may be a value the library
    still converts; the properties of validation take the conversions
    through hypotheses or as parameters, and hold of the lenient ones as
    well. *)
Inductive raw :=
  | RNull
  | RBool (b : bool)
  | RInt (z : Z)
  | RFloat (f : float)
  | RStr (s : string)
  | RTime (d : Py.datetime).

Inductive error_kind := Missing | WrongType.

Definition error : Type := string * error_kind.

Definition digit (c : ascii) : option Z :=
  let n := Z.of_nat (nat_of_ascii c) - 48 in
  if (0 <=? n) && (n <=? 9) then Some n else None.

(** Reads exactly [n] decimal digits. *)
Fixpoint read_digits (n : nat) (s : string) (acc : Z) : option (Z * string) :=
  match n with
  | O => Some (acc, s)
  | S n =>
      match s with
      | String c s' => d ← digit c; read_digits n s' (acc * 10 + d)
      | EmptyString => None
      end
  end.

Definition expect (c : ascii) (s : string) : option string :=
  match s with
  | String c' s' => if Ascii.eqb c c' then Some s' else None
  | EmptyString => None
  end.

(** The zone suffix: nothing (naive), [Z], or [+HH:MM] / [-HH:MM]. *)
Definition parse_zone (s : string) : option (option Py.timedelta) :=
  match s with
  | EmptyString => Some None
  | String c s' =>
      if Ascii.eqb c "Z" then
        match s' with EmptyString => Some (Some (Py.mktimedelta 0 0 0)) | _ => None end
      else
        sign ← (if Ascii.eqb c "+" then Some 1
                else if Ascii.eqb c "-" then Some (-1) else None);
        '(h, s1) ← read_digits 2 s' 0;
        s2 ← expect ":" s1;
        '(m, s3) ← read_digits 2 s2 0;
        match s3 with
        | EmptyString =>
            if (h <? 24) && (m <? 60)
            then Some (Some (Py.timedelta_new 0 (sign * (h * 3600 + m * 60)) 0))
            else None
        | _ => None
        end
  end.

(** ISO 8601 timestamps [YYYY-MM-DDTHH:MM:SS] (or with a space for [T]),
    with an optional fraction of six digits and an optional zone; the
    fields must be in range. *)
Definition parse_datetime (s : string) : option Py.datetime :=
  '(y, s) ← read_digits 4 s 0;
  s ← expect "-" s;
  '(mo, s) ← read_digits 2 s 0;
  s ← expect "-" s;
  '(d, s) ← read_digits 2 s 0;
  s ← (match expect "T" s with Some s' => Some s' | None => expect " " s end);
  '(h, s) ← read_digits 2 s 0;
  s ← expect ":" s;
  '(mi, s) ← read_digits 2 s 0;
  s ← expect ":" s;
  '(se, s) ← read_digits 2 s 0;
  '(us, s) ← (match expect "." s with
              | Some s' => read_digits 6 s' 0
              | None => Some (0, s)
              end);
  tz ← parse_zone s;
  let r := Py.mkdatetime (Py.mkdate y mo d) (Py.mktime h mi se us) tz in
  if (1 <=? y) && Py.valid_datetime r then Some r else None.

(** [float(n)] for an integer [n]: the nearest double, none when out of
    range. *)
Definition float_of_int (z : Z) : option float :=
  let f := SF2Prim (SpecFloat.binary_normalize prec emax z 0 false) in
  if PrimFloat.is_infinity f then None else Some f.

Definition as_str (v : raw) : option string :=
  match v with RStr s => Some s | _ => None end.

Definition as_float (v : raw) : option float :=
  match v with RFloat f => Some f | RInt z => float_of_int z | _ => None end.

Definition as_int (v : raw) : option Z :=
  match v with RInt z => Some z | _ => None end.

Definition as_bool (v : raw) : option bool :=
  match v with RBool b => Some b | _ => None end.

Definition as_datetime (v : raw) : option Py.datetime :=
  match v with RTime d => Some d | RStr s => parse_datetime s | _ => None end.

(** One declared field [name: ty] of a model, read from a request. *)
Definition field {A} (conv : raw -> option A) (name : string)
    (req : gmap string raw) : list error + A :=
  match req !! name with
  | None => inl [(name, Missing)]
  | Some v =>
      match conv v with
      | Some a => inr a
      | None => inl [(name, WrongType)]
      end
  end.

(** Application that keeps every field's errors. *)
Definition vap {A B} (f : list error + (A -> B)) (x : list error + A)
  : list error + B :=
  match f, x with
  | inr f, inr a => inr (f a)
  | inl e, inr _ => inl e
  | inr _, inl e => inl e
  | inl e1, inl e2 => inl (e1 ++ e2)%list
  end.

Notation "f <*> x" := (vap f x) (at level 50, left associativity).

(** Responses and result rows. *)
Inductive details_t :=
  | DetailsText (s : string)
  | DetailsList (l : list entry).

(** ** The scoring API, [fraud_detection_api.py] *)

Module Api.

Record Transaction := mkTransaction {
  id : string;
  amount : float;
  payment_channel : string;
  device_type : string;
  transaction_time : Py.datetime;
  location : string;
  high_value_tx_count : Z;
  account_creation_date : Py.datetime;
  is_verified : bool;
  transaction_time_weekday : Py.datetime
}.

Definition R1 : FraudRule Transaction :=
  mkFraudRule "R1" "High transaction amount" "review"
    (fun t => mret (PrimFloat.ltb 500000%float (amount t))).

Definition R2 : FraudRule Transaction :=
  mkFraudRule "R2" "Web channel transaction" "reject"
    (fun t => mret (String.eqb (payment_channel t) "web")).

Definition R3 : FraudRule Transaction :=
  mkFraudRule "R3" "Transaction from iOS device" "review"
    (fun t => mret (String.eqb (device_type t) "iOS")).

Definition R4 : FraudRule Transaction :=
  mkFraudRule "R4" "Late-night transaction" "review"
    (fun t => mret (Py.time_le (Py.mktime 23 0 0 0) (Py.dt_time (transaction_time t))
                    || Py.time_le (Py.dt_time (transaction_time t)) (Py.mktime 5 0 0 0))).

Definition R5 : FraudRule Transaction :=
  mkFraudRule "R5" "Transaction from Lagos, Nigeria" "reject"
    (fun t => mret (String.eqb (location t) "Lagos, Nigeria")).

Definition R6 : FraudRule Transaction :=
  mkFraudRule "R6" "Frequent high-value transactions" "review"
    (fun t => mret (5 <? high_value_tx_count t)).

Definition R7 : FraudRule Transaction :=
  mkFraudRule "R7" "Account created recently" "review"
    (fun t => now ← datetime_now;
              d ← lift (datetime_sub now (account_creation_date t));
              mret (Py.days d <=? 30)).

Definition R8 : FraudRule Transaction :=
  mkFraudRule "R8" "Unverified account" "reject"
    (fun t => mret (negb (is_verified t))).

Definition R9 : FraudRule Transaction :=
  mkFraudRule "R9" "Transaction during restricted period" "reject"
    (fun t => mret (6 <=? Py.weekday (Py.dt_date (transaction_time t)))).

(** Construction of a [Transaction] from a request: the ten declared
    fields, none with a default. *)
Definition validate (req : gmap string raw) : list error + Transaction :=
  inr mkTransaction
    <*> field as_str "id" req
    <*> field as_float "amount" req
    <*> field as_str "payment_channel" req
    <*> field as_str "device_type" req
    <*> field as_datetime "transaction_time" req
    <*> field as_str "location" req
    <*> field as_int "high_value_tx_count" req
    <*> field as_datetime "account_creation_date" req
    <*> field as_bool "is_verified" req
    <*> field as_datetime "transaction_time_weekday" req.

(** [FraudDetector.create_rules]. *)
Definition create_rules : list (FraudRule Transaction) :=
  [R1; R2; R3; R4; R5; R6; R7; R8; R9].

(** [FraudDetector.check_fraud], with [self.rules = create_rules()]. *)
Definition check_fraud (transaction : Transaction) : M (list entry) :=
  apply_rules create_rules transaction [].

Record response := mkresponse {
  transaction_id : string;
  status : string;
  details : details_t
}.

(** The endpoint [POST /check_transaction/]. *)
Definition check_transaction (transaction : Transaction) : M response :=
  fraud_results ← check_fraud transaction;
  match fraud_results with
  | [] => mret (mkresponse (id transaction) "clear" (DetailsText "No fraud detected"))
  | _ => mret (mkresponse (id transaction) "flagged" (DetailsList fraud_results))
  end.

End Api.

(** ** The batch dashboard, [fraud_detection_app.py] *)

Module App.

Record Transaction := mkTransaction {
  id : string;
  amount : float;
  payment_channel : string;
  device_type : string;
  transaction_time : Py.datetime;
  location : string;
  high_value_tx_count : Z;
  account_creation_date : Py.datetime;
  is_verified : bool;
  transaction_time_weekday : string
}.

(** [x in xs] on a list of strings. *)
Definition str_in (x : string) (xs : list string) : bool :=
  existsb (String.eqb x) xs.

Definition R1 : FraudRule Transaction :=
  mkFraudRule "R1" "High transaction amount" "review"
    (fun t => mret (PrimFloat.ltb 500000%float (amount t))).

Definition R2 : FraudRule Transaction :=
  mkFraudRule "R2" "Web channel transaction" "reject"
    (fun t => mret (String.eqb (payment_channel t) "web")).

Definition R3 : FraudRule Transaction :=
  mkFraudRule "R3" "Transaction from iOS device" "review"
    (fun t => mret (String.eqb (device_type t) "iOS")).

Definition R4 : FraudRule Transaction :=
  mkFraudRule "R4" "Late-night transaction" "review"
    (fun t => mret ((Py.hour (Py.dt_time (transaction_time t)) <? 5)
                    || (23 <=? Py.hour (Py.dt_time (transaction_time t))))).

Definition R5 : FraudRule Transaction :=
  mkFraudRule "R5" "Transaction from Lagos, Nigeria" "reject"
    (fun t => mret (String.eqb (location t) "Lagos, Nigeria")).

Definition R6 : FraudRule Transaction :=
  mkFraudRule "R6" "Frequent high-value transactions" "review"
    (fun t => mret (5 <? high_value_tx_count t)).

Definition R7 : FraudRule Transaction :=
  mkFraudRule "R7" "Account created recently" "review"
    (fun t => now ← datetime_now;
              d ← lift (datetime_sub now (account_creation_date t));
              mret (Py.days d <=? 30)).

Definition R8 : FraudRule Transaction :=
  mkFraudRule "R8" "Unverified account" "reject"
    (fun t => mret (negb (is_verified t))).

Definition R9 : FraudRule Transaction :=
  mkFraudRule "R9" "Transaction on weekend" "reject"
    (fun t => mret (str_in (transaction_time_weekday t) ["Saturday"; "Sunday"])).

(** Construction of a [Transaction] from a row, as
    [convert_to_transactions] does for each one. *)
Definition validate (req : gmap string raw) : list error + Transaction :=
  inr mkTransaction
    <*> field as_str "id" req
    <*> field as_float "amount" req
    <*> field as_str "payment_channel" req
    <*> field as_str "device_type" req
    <*> field as_datetime "transaction_time" req
    <*> field as_str "location" req
    <*> field as_int "high_value_tx_count" req
    <*> field as_datetime "account_creation_date" req
    <*> field as_bool "is_verified" req
    <*> field as_str "transaction_time_weekday" req.

Definition create_fraud_rules : list (FraudRule Transaction) :=
  [R1; R2; R3; R4; R5; R6; R7; R8; R9].

(** One row of the list [evaluate_transactions] returns. *)
Record row := mkrow {
  r_id : string;
  r_status : string;
  r_details : list entry;
  r_weekday : string;
  r_location : string
}.

(** [evaluate_transactions]: the outer loop over the batch, [results]
    being the rows appended so far. *)
Fixpoint evaluate_loop (transactions : list Transaction)
    (rules : list (FraudRule Transaction)) (results : list row) : M (list row) :=
  match transactions with
  | [] => mret results
  | tx :: rest =>
      tx_results ← apply_rules rules tx [];
      let status := match tx_results with [] => "clear" | _ => "flagged" end in
      evaluate_loop rest rules
        (results ++ [mkrow (id tx) status tx_results
                           (transaction_time_weekday tx) (location tx)])%list
  end.

Definition evaluate_transactions (transactions : list Transaction)
    (rules : list (FraudRule Transaction)) : M (list row) :=
  evaluate_loop transactions rules [].

End App.

(** The field names of §3 of the specification, and the tenth field both
    models declare. *)
Definition nine_fields : list string :=
  ["id"; "amount"; "payment_channel"; "device_type"; "transaction_time";
   "location"; "high_value_tx_count"; "account_creation_date"; "is_verified"].

Definition declared_fields : list string :=
  (nine_fields ++ ["transaction_time_weekday"])%list.

(** What a row of the dashboard says about its transaction. *)
Definition row_of (rules : list (FraudRule App.Transaction))
    (tx : App.Transaction) (r : App.row) : Prop :=
  App.r_id r = App.id tx
  /\ (exists w0, fst (apply_rules rules tx [] w0) = Ok (App.r_details r))
  /\ (App.r_status r = "clear" <-> App.r_details r = [])
  /\ (App.r_status r = "flagged" <-> App.r_details r <> []).

(** ** Sample data *)

(** A clock that always shows the same instant. *)
Definition frozen (d : Py.date) (t : Py.time) : world :=
  mkworld (fun _ => (d, t)) 0.

Definition w2024 : world := frozen (Py.mkdate 2024 12 1) (Py.mktime 9 0 0 0).

Definition scenario (i : string) (acd wd : Py.datetime) : Api.Transaction :=
  Api.mkTransaction i 600000%float "web" "Android"
    (Py.naive (Py.mkdate 2024 11 12) (Py.mktime 23 30 0 0))
    "Lagos, Nigeria" 1 acd true wd.

(** The request of the sample payload in [fraud_detection_api.py]; its
    repeated key [transaction_time] keeps the last value. *)
Definition sample_payload : gmap string raw :=
  <["id" := RStr "TXN002"]>
  (<["amount" := RInt 10000]>
  (<["payment_channel" := RStr "web"]>
  (<["device_type" := RStr "Android"]>
  (<["transaction_time" := RStr "2024-11-17T12:00:00"]>
  (<["location" := RStr "Ibadan, Nigeria"]>
  (<["high_value_tx_count" := RInt 1]>
  (<["account_creation_date" := RStr "2024-11-17T12:00:00"]>
  (<["is_verified" := RBool true]> ∅)))))))).

Definition noon : Py.time := Py.mktime 12 0 0 0.

(** An otherwise unremarkable transaction of the scoring API made at
    [when], for an account created at [acd]. *)
Definition plain (when acd : Py.datetime) : Api.Transaction :=
  Api.mkTransaction "TXN100" 100%float "atm" "Android" when
    "Accra, Ghana" 0 acd true when.

(** The same for the dashboard, with its weekday label. *)
Definition plain_row (when acd : Py.datetime) (label : string) : App.Transaction :=
  App.mkTransaction "TXN100" 100%float "atm" "Android" when
    "Accra, Ghana" 0 acd true label.

Definition old_account : Py.datetime := Py.naive (Py.mkdate 2022 12 1) noon.

(** Wednesday 13, Saturday 16 and Sunday 17 November 2024. *)
Definition wednesday_tx : Api.Transaction :=
  plain (Py.naive (Py.mkdate 2024 11 13) noon) old_account.
Definition saturday_tx : Api.Transaction :=
  plain (Py.naive (Py.mkdate 2024 11 16) noon) old_account.
Definition sunday_tx : Api.Transaction :=
  plain (Py.naive (Py.mkdate 2024 11 17) noon) old_account.
Definition sunday_row : App.Transaction :=
  plain_row (Py.naive (Py.mkdate 2024 11 17) noon) old_account "Sunday".
Definition wednesday_row : App.Transaction :=
  plain_row (Py.naive (Py.mkdate 2024 11 13) noon) old_account "Wednesday".

(** A ten-field request whose creation date carries a zone, and the
    Transaction it validates to. *)
Definition zoned_payload : gmap string raw :=
  <["account_creation_date" := RStr "2024-11-17T12:00:00Z"]>
  (<["transaction_time_weekday" := RStr "2024-11-17T12:00:00"]> sample_payload).

Definition zoned_tx : Api.Transaction :=
  Api.mkTransaction "TXN002" 10000%float "web" "Android"
    (Py.naive (Py.mkdate 2024 11 17) noon) "Ibadan, Nigeria" 1
    (Py.mkdatetime (Py.mkdate 2024 11 17) noon (Some (Py.mktimedelta 0 0 0)))
    true (Py.naive (Py.mkdate 2024 11 17) noon).

Definition zoned_row : App.Transaction :=
  plain_row (Py.naive (Py.mkdate 2024 11 13) noon)
    (Py.mkdatetime (Py.mkdate 2022 12 1) noon (Some (Py.mktimedelta 0 3600 0)))
    "Wednesday".

(** Wednesday 13 November 2024 at exactly 05:00:00 and at 23:00:00. *)
Definition five_tx : Api.Transaction :=
  plain (Py.naive (Py.mkdate 2024 11 13) (Py.mktime 5 0 0 0)) old_account.
Definition five_row : App.Transaction :=
  plain_row (Py.naive (Py.mkdate 2024 11 13) (Py.mktime 5 0 0 0)) old_account
    "Wednesday".
Definition eleven_tx : Api.Transaction :=
  plain (Py.naive (Py.mkdate 2024 11 13) (Py.mktime 23 0 0 0)) old_account.
Definition eleven_row : App.Transaction :=
  plain_row (Py.naive (Py.mkdate 2024 11 13) (Py.mktime 23 0 0 0)) old_account
    "Wednesday".

(** Accounts dated after the clock of [w2024]. *)
Definition future_tx : Api.Transaction :=
  plain (Py.naive (Py.mkdate 2024 11 13) noon)
        (Py.naive (Py.mkdate 2025 3 1) noon).
Definition future_row : App.Transaction :=
  plain_row (Py.naive (Py.mkdate 2024 11 13) noon)
            (Py.naive (Py.mkdate 2025 3 1) noon) "Wednesday".

(** ** The dashboard's script: conversion of the table and summary *)

Module Dashboard.

(** [convert_to_transactions]: the rows are converted in order and the
    first row that fails validation raises its [ValidationError]. *)
Fixpoint convert_to_transactions (data : list (gmap string raw))
  : list error + list App.Transaction :=
  match data with
  | [] => inr []
  | row :: rest =>
      match App.validate row with
      | inl e => inl e
      | inr tx =>
          match convert_to_transactions rest with
          | inl e => inl e
          | inr txs => inr (tx :: txs)
          end
      end
  end.

(** [results_df = pd.DataFrame(fraud_results)].  A frame built from an
    empty list of records has no columns, and selecting a column of it
    raises [KeyError]; a frame built from rows has the columns of the
    rows. *)
Inductive frame_error := KeyError (column : string).

Definition is_status (s : string) (r : App.row) : bool :=
  String.eqb (App.r_status r) s.

Definition has_action (a : string) (item : entry) : bool :=
  String.eqb (e_action item) a.

(** [[detail for details in results_df["details"] for detail in details]]. *)
Definition all_details (results : list App.row) : list entry :=
  concat (map App.r_details results).

(** [sep.join(parts)]. *)
Fixpoint join (sep : string) (parts : list string) : string :=
  match parts with
  | [] => ""
  | [x] => x
  | x :: rest => (x ++ sep ++ join sep rest)%string
  end.

(** The cell of the evaluation table:
    [', '.join([f"{item['action']} ({item['reason']})" for item in x]) if x else 'None']. *)
Definition show_details (x : list entry) : string :=
  match x with
  | [] => "None"
  | _ => join ", " (map (fun item => (e_action item ++ " (" ++ e_reason item ++ ")")%string) x)
  end.

(** Everything the script computes from [results_df] before drawing. *)
Record summary := mksummary {
  total_transactions : nat;
  total_flagged : nat;
  total_cleared : nat;
  total_review : nat;
  total_reject : nat;
  reasons : list string;
  reasons_rejected : list string;
  flagged_locations : list string;
  rejected_locations : list string;
  evaluation_table : list (string * string * string)
}.

Definition summarize (results : list App.row) : frame_error + summary :=
  match results with
  | [] => inl (KeyError "status")
  | _ =>
      let flagged := List.filter (is_status "flagged") results in
      inr (mksummary
        (length results)
        (length flagged)
        (length (List.filter (is_status "clear") results))
        (length (List.filter (has_action "review") (all_details results)))
        (length (List.filter (has_action "reject") (all_details results)))
        (map e_reason (all_details results))
        (map e_reason (List.filter (has_action "reject") (all_details flagged)))
        (map App.r_location flagged)
        (map App.r_location
           (List.filter (fun r => existsb (has_action "reject") (App.r_details r)) flagged))
        (map (fun r => (App.r_id r, App.r_status r, show_details (App.r_details r)))
             results))
  end.

(** The script from the table to the summary: conversion, evaluation
    with the dashboard's rules, summary. *)
Inductive failure :=
  | ValidationError (errors : list error)
  | Exception (e : exn)
  | FrameError (e : frame_error).

(** Lines 112 to 122 and the summary: [convert_to_transactions],
    [create_fraud_rules], [evaluate_transactions], [pd.DataFrame]. *)
Definition run (data : list (gmap string raw)) (w : world)
  : (failure + summary) * world :=
  match convert_to_transactions data with
  | inl e => (inl (ValidationError e), w)
  | inr transactions =>
      match App.evaluate_transactions transactions App.create_fraud_rules w with
      | (Raise e, w') => (inl (Exception e), w')
      | (Ok fraud_results, w') =>
          match summarize fraud_results with
          | inl e => (inl (FrameError e), w')
          | inr s => (inr s, w')
          end
      end
  end.

End Dashboard.

(** The world after [k] more readings of the clock. *)
Definition advance (w : world) (k : nat) : world :=
  mkworld (clock w) (k + reads w).

(** The row the dashboard computes for a transaction evaluated in [w]. *)
Definition row_at (tx : App.Transaction) (w : world) : App.row :=
  let ms := selected App.create_fraud_rules tx w in
  App.mkrow (App.id tx) (match ms with [] => "clear" | _ => "flagged" end) ms
            (App.transaction_time_weekday tx) (App.location tx).

(** A rule that always matches and has the empty string for action. *)
Definition silent_rule : FraudRule Api.Transaction :=
  mkFraudRule "S0" "Always" "" (fun _ => mret true).

(** 31 days, in microseconds. *)
Definition thirty_one_days : Z := 31 * 86400000000.

(** An account created 30 days and 23 hours before the clock of [w2024]
    shows, and one created 31 days before. *)
Definition almost_31_tx : Api.Transaction :=
  plain (Py.naive (Py.mkdate 2024 11 13) noon)
        (Py.naive (Py.mkdate 2024 10 31) (Py.mktime 10 0 0 0)).
Definition almost_31_row : App.Transaction :=
  plain_row (Py.naive (Py.mkdate 2024 11 13) noon)
            (Py.naive (Py.mkdate 2024 10 31) (Py.mktime 10 0 0 0)) "Wednesday".

(** The clock of [w2024] one day later. *)
Definition w2024_next : world :=
  frozen (Py.mkdate 2024 12 2) (Py.mktime 9 0 0 0).

(** Entries other than that of R7. *)
Definition not_R7 (e : entry) : bool :=
  negb (String.eqb (e_reason e) "Account created recently").

(** What every row computed with the dashboard's rules satisfies. *)
Definition well_formed_row (r : App.row) : Prop :=
  (App.r_status r = "clear" /\ App.r_details r = []
   \/ App.r_status r = "flagged" /\ App.r_details r <> [])
  /\ Forall (fun e => e_action e = "review" \/ e_action e = "reject")
            (App.r_details r)
  /\ (length (App.r_details r) <= 9)%nat.

(** A batch of three: nothing to report, a Sunday, and the scenario of
    the scoring API brought to the dashboard. *)
Definition scenario_row : App.Transaction :=
  App.mkTransaction "TXN001" 600000%float "web" "Android"
    (Py.naive (Py.mkdate 2024 11 12) (Py.mktime 23 30 0 0))
    "Lagos, Nigeria" 1 old_account true "Tuesday".

Definition sample_batch : list App.Transaction :=
  [wednesday_row; sunday_row; scenario_row].

Definition sample_rows : list App.row :=
  [App.mkrow "TXN100" "clear" [] "Wednesday" "Accra, Ghana";
   App.mkrow "TXN100" "flagged" [mkentry "reject" "Transaction on weekend"]
             "Sunday" "Accra, Ghana";
   App.mkrow "TXN001" "flagged"
             [mkentry "review" "High transaction amount";
              mkentry "reject" "Web channel transaction";
              mkentry "review" "Late-night transaction";
              mkentry "reject" "Transaction from Lagos, Nigeria"]
             "Tuesday" "Lagos, Nigeria"].

Definition sample_summary : Dashboard.summary :=
  Dashboard.mksummary 3 2 1 2 3
    ["Transaction on weekend"; "High transaction amount";
     "Web channel transaction"; "Late-night transaction";
     "Transaction from Lagos, Nigeria"]
    ["Transaction on weekend"; "Web channel transaction";
     "Transaction from Lagos, Nigeria"]
    ["Accra, Ghana"; "Lagos, Nigeria"] ["Accra, Ghana"; "Lagos, Nigeria"]
    [("TXN100", "clear", "None");
     ("TXN100", "flagged", "reject (Transaction on weekend)");
     ("TXN001", "flagged",
      "review (High transaction amount), reject (Web channel transaction), review (Late-night transaction), reject (Transaction from Lagos, Nigeria)")].

(** The errors of a validation outcome, none on success. *)
Definition errors_of {A} (v : list error + A) : list error :=
  match v with inl e => e | inr _ => [] end.

(** The sample payload with every field of another type than declared,
    and without [is_verified]. *)
Definition ill_typed_payload : gmap string raw :=
  <["id" := RInt 7]>
  (<["transaction_time" := RStr "yesterday"]>
  (delete "is_verified" sample_payload)).

(** The zoned request with [is_verified] false, and the Transaction it
    validates to: made through the web on Sunday 17 November 2024 by an
    unverified account. *)
Definition zoned_unverified_payload : gmap string raw :=
  <["is_verified" := RBool false]> zoned_payload.

Definition zoned_unverified_tx : Api.Transaction :=
  Api.mkTransaction "TXN002" 10000%float "web" "Android"
    (Py.naive (Py.mkdate 2024 11 17) noon) "Ibadan, Nigeria" 1
    (Py.mkdatetime (Py.mkdate 2024 11 17) noon (Some (Py.mktimedelta 0 0 0)))
    false (Py.naive (Py.mkdate 2024 11 17) noon).

(** A request whose creation date, 1 January 2030 in UTC, is years after
    the clock of [w2024], and the Transaction it validates to. *)
Definition future_zoned_payload : gmap string raw :=
  <["account_creation_date" := RStr "2030-01-01T00:00:00Z"]>
  (<["transaction_time_weekday" := RStr "2024-11-17T12:00:00"]> sample_payload).

Definition future_zoned_tx : Api.Transaction :=
  Api.mkTransaction "TXN002" 10000%float "web" "Android"
    (Py.naive (Py.mkdate 2024 11 17) noon) "Ibadan, Nigeria" 1
    (Py.mkdatetime (Py.mkdate 2030 1 1) (Py.mktime 0 0 0 0)
                   (Some (Py.mktimedelta 0 0 0)))
    true (Py.naive (Py.mkdate 2024 11 17) noon).

(** ** Validation, whatever the conversions *)

(** The conversion of a value to each of the five field types is the
    library's.  What the models add is the list of their fields; the
    construction below is [validate] with the five conversions taken as
    parameters, so that what is proved of it holds of the library's own
    conversions, lenient spellings included. *)
Record conversions := mkconversions {
  to_str : raw -> option string;
  to_float : raw -> option float;
  to_int : raw -> option Z;
  to_bool : raw -> option bool;
  to_datetime : raw -> option Py.datetime
}.

Definition standard_conversions : conversions :=
  mkconversions as_str as_float as_int as_bool as_datetime.

Definition api_validate_with (cv : conversions) (req : gmap string raw)
  : list error + Api.Transaction :=
  inr Api.mkTransaction
    <*> field (to_str cv) "id" req
    <*> field (to_float cv) "amount" req
    <*> field (to_str cv) "payment_channel" req
    <*> field (to_str cv) "device_type" req
    <*> field (to_datetime cv) "transaction_time" req
    <*> field (to_str cv) "location" req
    <*> field (to_int cv) "high_value_tx_count" req
    <*> field (to_datetime cv) "account_creation_date" req
    <*> field (to_bool cv) "is_verified" req
    <*> field (to_datetime cv) "transaction_time_weekday" req.

Definition app_validate_with (cv : conversions) (req : gmap string raw)
  : list error + App.Transaction :=
  inr App.mkTransaction
    <*> field (to_str cv) "id" req
    <*> field (to_float cv) "amount" req
    <*> field (to_str cv) "payment_channel" req
    <*> field (to_str cv) "device_type" req
    <*> field (to_datetime cv) "transaction_time" req
    <*> field (to_str cv) "location" req
    <*> field (to_int cv) "high_value_tx_count" req
    <*> field (to_datetime cv) "account_creation_date" req
    <*> field (to_bool cv) "is_verified" req
    <*> field (to_str cv) "transaction_time_weekday" req.

(** Conversions that also read the numbers 0 and 1 as booleans, as a
    lenient library does, and are the standard ones otherwise. *)
Definition lenient_conversions : conversions :=
  mkconversions as_str as_float as_int
    (fun v => match v with
              | RInt 0 => Some false
              | RInt 1 => Some true
              | _ => as_bool v
              end)
    as_datetime.

(** The sample payload with a weekday name for tenth field: well-typed
    for the dashboard, ill-typed for the scoring API. *)
Definition labelled_payload : gmap string raw :=
  <["transaction_time_weekday" := RStr "Sunday"]> sample_payload.

(** * Properties *)

(** ** Sample runs *)

Example weekday_tuesday :
  Py.toordinal (Py.mkdate 2024 11 12) = 739202
  /\ Py.weekday (Py.mkdate 2024 11 12) = 1.
Proof. split; reflexivity. Qed.

Example timedelta_borrow :
  Py.timedelta_new 0 (-1) 0 = Py.mktimedelta (-1) 86399 0.
Proof. reflexivity. Qed.

Example parse_zoned :
  parse_datetime "2024-11-17T12:00:00+01:00"
  = Some (Py.mkdatetime (Py.mkdate 2024 11 17) noon (Some (Py.mktimedelta 0 3600 0))).
Proof. vm_compute. reflexivity. Qed.

Example parse_bad_month : parse_datetime "2024-13-17T12:00:00" = None.
Proof. vm_compute. reflexivity. Qed.

Example one_microsecond_past_five :
  Py.time_le (Py.mktime 5 0 0 1) (Py.mktime 5 0 0 0) = false
  /\ Py.time_le (Py.mktime 5 0 0 0) (Py.mktime 5 0 0 0) = true.
Proof. split; reflexivity. Qed.

Example float_of_int_exact : float_of_int 10000 = Some 10000%float.
Proof. vm_compute. reflexivity. Qed.

(** ** The evaluation loop *)

Section Loop.
Context {T : Type}.
Implicit Types (r : FraudRule T) (rules : list (FraudRule T)) (t : T).

Lemma apply_rules_nil t acc w : apply_rules [] t acc w = (Ok acc, w).
Proof. reflexivity. Qed.

(** One turn of the loop: the rule is evaluated, its match (if any) goes
    to the end of the accumulator, and the loop goes on with the rest
    whatever the outcome; only an exception stops it. *)
Lemma apply_rules_cons r rules t acc w :
  apply_rules (r :: rules) t acc w =
  match condition r t w with
  | (Ok b, w') => apply_rules rules t (acc ++ contribution r b)%list w'
  | (Raise e, w') => (Raise e, w')
  end.
Proof.
  cbn [apply_rules]. unfold evaluate, mbind, M_bind, mret, M_ret, contribution.
  destruct (condition r t w) as [[b|e] w']; [|reflexivity].
  destruct b; cbn.
  - destruct (String.eqb (action r) ""); cbn; [|reflexivity].
    now rewrite app_nil_r.
  - now rewrite app_nil_r.
Qed.

(** The accumulator is only ever extended at its end. *)
Lemma apply_rules_acc rules t acc w :
  apply_rules rules t acc w =
  match apply_rules rules t [] w with
  | (Ok l, w') => (Ok (acc ++ l)%list, w')
  | (Raise e, w') => (Raise e, w')
  end.
Proof.
  revert acc w. induction rules as [|r rules IH]; intros acc w.
  - cbn. now rewrite app_nil_r.
  - rewrite !apply_rules_cons.
    destruct (condition r t w) as [[b|e] w']; [|reflexivity].
    rewrite (IH (acc ++ contribution r b)%list), (IH ([] ++ contribution r b)%list).
    destruct (apply_rules rules t [] w') as [[l|e] w'']; [|reflexivity].
    cbn. now rewrite app_assoc.
Qed.

Lemma apply_rules_pure r f rules t w :
  pure_rule r f ->
  apply_rules (r :: rules) t [] w =
  match apply_rules rules t [] w with
  | (Ok l, w') => (Ok (contribution r (f t) ++ l)%list, w')
  | (Raise e, w') => (Raise e, w')
  end.
Proof.
  intros Hr. rewrite apply_rules_cons, Hr. cbn [app].
  apply apply_rules_acc.
Qed.

Lemma selected_In rules t w e :
  In e (selected rules t w) <->
  exists r, In r rules /\ matched r t w = true /\ entry_of r = e.
Proof.
  unfold selected. rewrite in_map_iff. split.
  - intros (r & He & Hr). apply filter_In in Hr. exists r. tauto.
  - intros (r & Hr & Hm & He). exists r. split; [assumption|].
    apply filter_In. tauto.
Qed.

Lemma matched_pure r f t w : pure_rule r f -> matched r t w = f t.
Proof. intros Hr. unfold matched. rewrite Hr. cbn. now destruct (f t). Qed.

Lemma selected_cons r rules t w :
  selected (r :: rules) t w =
  ((if matched r t w then [entry_of r] else []) ++ selected rules t w)%list.
Proof. unfold selected. cbn. now destruct (matched r t w). Qed.

Lemma contribution_matched r b :
  action r <> "" ->
  contribution r b = if b then [entry_of r] else [].
Proof.
  intros Ha. unfold contribution.
  destruct (String.eqb_spec (action r) ""); [contradiction|].
  now destruct b.
Qed.

(** The matches come in the order of the rules. *)
Lemma selected_sublist rules t w :
  sublist (selected rules t w) (map entry_of rules).
Proof.
  induction rules as [|r rules IH]; [constructor|].
  rewrite selected_cons. cbn [map].
  destruct (matched r t w); cbn [app]; now constructor.
Qed.

End Loop.

(** ** Time arithmetic *)

Ltac zdiv := Z.to_euclidean_division_equations; lia.

(** The constructor's carries amount to one floor division of the total
    number of microseconds. *)
Lemma timedelta_new_days d s us :
  Py.days (Py.timedelta_new d s us)
  = (d * 86400000000 + s * 1000000 + us) / 86400000000.
Proof. unfold Py.timedelta_new. cbn [Py.days]. zdiv. Qed.

Lemma datetime_sub_naive a b :
  Py.tzinfo a = None -> Py.tzinfo b = None ->
  exists d, datetime_sub a b = Ok d /\
            Py.days d = (instant a - instant b) / 86400000000.
Proof.
  intros Ha Hb. unfold datetime_sub. rewrite Ha, Hb.
  eexists; split; [reflexivity|].
  rewrite timedelta_new_days. unfold instant. f_equal. lia.
Qed.

Lemma datetime_sub_mixed a b :
  Py.tzinfo a = None -> Py.tzinfo b <> None ->
  datetime_sub a b
  = Raise (TypeError "can't subtract offset-naive and offset-aware datetimes").
Proof.
  intros Ha Hb. unfold datetime_sub. rewrite Ha.
  destruct (Py.tzinfo b); [reflexivity|congruence].
Qed.

(** ** The calendar *)

Lemma days_before_year_succ y :
  Py._days_before_year (y + 1)
  = Py._days_before_year y + 365 + (if Py._is_leap y then 1 else 0).
Proof.
  unfold Py._days_before_year, Py._is_leap.
  replace (y + 1 - 1) with y by lia.
  destruct (Z.eqb_spec (y mod 4) 0), (Z.eqb_spec (y mod 100) 0),
    (Z.eqb_spec (y mod 400) 0); cbn [andb orb negb]; zdiv.
Qed.

Lemma days_before_year_mono y1 y2 :
  y1 <= y2 -> Py._days_before_year y1 <= Py._days_before_year y2.
Proof. unfold Py._days_before_year. intros H. zdiv. Qed.

Lemma valid_date_month d :
  Py.valid_date d = true ->
  In (Py.month d) [1; 2; 3; 4; 5; 6; 7; 8; 9; 10; 11; 12]
  /\ 1 <= Py.day d <= Py._days_in_month (Py.year d) (Py.month d).
Proof.
  unfold Py.valid_date. rewrite !andb_true_iff, !Z.leb_le. intros [[[H1 H2] H3] H4].
  split; [|lia]. cbn [In].
  assert (Py.month d = 1 \/ Py.month d = 2 \/ Py.month d = 3 \/ Py.month d = 4 \/
          Py.month d = 5 \/ Py.month d = 6 \/ Py.month d = 7 \/ Py.month d = 8 \/
          Py.month d = 9 \/ Py.month d = 10 \/ Py.month d = 11 \/ Py.month d = 12)
    by lia.
  intuition.
Qed.

(** A valid date is one of the 365 or 366 days of its year. *)
Lemma toordinal_in_year d :
  Py.valid_date d = true ->
  Py._days_before_year (Py.year d) < Py.toordinal d
  /\ Py.toordinal d <= Py._days_before_year (Py.year d + 1).
Proof.
  destruct d as [y m d].
  intros Hv. apply valid_date_month in Hv as [Hm Hd].
  rewrite days_before_year_succ.
  unfold Py.toordinal, Py._ymd2ord, Py._days_before_month.
  cbn [Py.year Py.month Py.day In] in *.
  repeat (destruct Hm as [<-|Hm]); try contradiction;
    cbn in Hd |- *; destruct (Py._is_leap y); lia.
Qed.

(** Within a year, a later month starts after the earlier month ends. *)
Lemma toordinal_month_lt y m1 d1 m2 d2 :
  Py.valid_date (Py.mkdate y m1 d1) = true ->
  Py.valid_date (Py.mkdate y m2 d2) = true ->
  m1 < m2 ->
  Py.toordinal (Py.mkdate y m1 d1) < Py.toordinal (Py.mkdate y m2 d2).
Proof.
  intros H1 H2 Hlt.
  apply valid_date_month in H1 as [Hm1 Hd1], H2 as [Hm2 Hd2].
  unfold Py.toordinal, Py._ymd2ord, Py._days_before_month.
  cbn [Py.year Py.month Py.day In] in *.
  repeat (destruct Hm1 as [<-|Hm1]); try contradiction;
    repeat (destruct Hm2 as [<-|Hm2]); try contradiction;
    try lia;
    cbn in Hd1, Hd2 |- *; destruct (Py._is_leap y); lia.
Qed.

Lemma valid_time_bounds t :
  Py.valid_time t = true ->
  0 <= Py.hour t < 24 /\ 0 <= Py.minute t < 60 /\ 0 <= Py.second t < 60
  /\ 0 <= Py.microsecond t < 1000000.
Proof.
  unfold Py.valid_time. rewrite !andb_true_iff, !Z.leb_le, !Z.ltb_lt. lia.
Qed.

(** On valid naive values the field-by-field order is the order of
    instants. *)
Lemma lex_lt_instant a b :
  Py.valid_datetime a = true -> Py.valid_datetime b = true ->
  lex_cmp (cmp_fields a) (cmp_fields b) = Lt ->
  instant a < instant b.
Proof.
  destruct a as [[y1 m1 d1] [h1 mi1 s1 u1] z1], b as [[y2 m2 d2] [h2 mi2 s2 u2] z2].
  unfold Py.valid_datetime. cbn [Py.dt_date Py.dt_time]. rewrite !andb_true_iff.
  intros [Hda Hta] [Hdb Htb].
  apply valid_time_bounds in Hta, Htb. cbn in Hta, Htb.
  unfold instant, Py.secs_of, cmp_fields.
  cbn [Py.dt_date Py.dt_time Py.year Py.month Py.day Py.hour Py.minute
       Py.second Py.microsecond lex_cmp].
  pose proof (toordinal_in_year _ Hda) as Ha.
  pose proof (toordinal_in_year _ Hdb) as Hb.
  cbn [Py.year] in Ha, Hb.
  destruct (Z.compare_spec y1 y2) as [->|Hy|Hy]; [|intros _|discriminate].
  2:{ pose proof (days_before_year_mono (y1 + 1) y2 ltac:(lia)). lia. }
  destruct (Z.compare_spec m1 m2) as [->|Hm|Hm]; [|intros _|discriminate].
  2:{ pose proof (toordinal_month_lt _ _ _ _ _ Hda Hdb Hm). lia. }
  assert (Hord : Py.toordinal (Py.mkdate y2 m2 d1) - Py.toordinal (Py.mkdate y2 m2 d2)
                 = d1 - d2) by (unfold Py.toordinal, Py._ymd2ord; cbn; lia).
  destruct (Z.compare_spec d1 d2) as [->|Hd|Hd]; [|intros _; lia|discriminate].
  destruct (Z.compare_spec h1 h2) as [->|Hh|Hh]; [|intros _; lia|discriminate].
  destruct (Z.compare_spec mi1 mi2) as [->|Hmi|Hmi]; [|intros _; lia|discriminate].
  destruct (Z.compare_spec s1 s2) as [->|Hs|Hs]; [|intros _; lia|discriminate].
  destruct (Z.compare_spec u1 u2) as [->|Hu|Hu]; [discriminate|intros _; lia|discriminate].
Qed.

(** ** Time of day *)

Lemma time_le_iff a b :
  Py.valid_time a = true -> Py.valid_time b = true ->
  (Py.time_le a b = true <-> time_of_day a <= time_of_day b).
Proof.
  destruct a as [h1 m1 s1 u1], b as [h2 m2 s2 u2]. intros Ha Hb.
  apply valid_time_bounds in Ha, Hb. cbn in Ha, Hb.
  unfold Py.time_le, Py.time_cmp, time_of_day, Py.secs_of.
  cbn [Py.hour Py.minute Py.second Py.microsecond].
  destruct (Z.compare_spec h1 h2) as [->|?|?]; [|split; [lia|reflexivity]|split; [discriminate|lia]].
  destruct (Z.compare_spec m1 m2) as [->|?|?]; [|split; [lia|reflexivity]|split; [discriminate|lia]].
  destruct (Z.compare_spec s1 s2) as [->|?|?]; [|split; [lia|reflexivity]|split; [discriminate|lia]].
  destruct (Z.compare_spec u1 u2) as [->|?|?]; [split; [lia|reflexivity]|split; [lia|reflexivity]|split; [discriminate|lia]].
Qed.

(** ** The rules of the scoring API *)

Module ApiFacts.
Import Api.

(** The account-age verdict at a given reading of the clock. *)
Lemma api_R7_run t w :
  condition R7 t w =
  (match datetime_sub (current_time w) (account_creation_date t) with
   | Ok d => Ok (Py.days d <=? 30)
   | Raise e => Raise e
   end, tick w).
Proof.
  unfold R7. cbn [condition].
  unfold mbind, M_bind, mret, M_ret, datetime_now, lift, tick.
  now destruct (datetime_sub _ _).
Qed.

Lemma api_R7_naive t w :
  Py.tzinfo (account_creation_date t) = None ->
  condition R7 t w =
  (Ok ((instant (current_time w) - instant (account_creation_date t))
         / 86400000000 <=? 30), tick w).
Proof.
  intros Hn. rewrite api_R7_run.
  destruct (datetime_sub_naive (current_time w) (account_creation_date t))
    as (d & -> & ->); auto.
Qed.

Lemma api_R7_aware t w :
  Py.tzinfo (account_creation_date t) <> None ->
  condition R7 t w =
  (Raise (TypeError "can't subtract offset-naive and offset-aware datetimes"),
   tick w).
Proof. intros Hn. rewrite api_R7_run, datetime_sub_mixed; auto. Qed.

(** Every rule but [R7] is a plain test on the transaction. *)
Lemma api_R1_pure : pure_rule R1 (fun t => PrimFloat.ltb 500000%float (amount t)).
Proof. intros t w. reflexivity. Qed.
Lemma api_R2_pure : pure_rule R2 (fun t => String.eqb (payment_channel t) "web").
Proof. intros t w. reflexivity. Qed.
Lemma api_R3_pure : pure_rule R3 (fun t => String.eqb (device_type t) "iOS").
Proof. intros t w. reflexivity. Qed.
Lemma api_R4_pure :
  pure_rule R4 (fun t =>
    Py.time_le (Py.mktime 23 0 0 0) (Py.dt_time (transaction_time t))
    || Py.time_le (Py.dt_time (transaction_time t)) (Py.mktime 5 0 0 0)).
Proof. intros t w. reflexivity. Qed.
Lemma api_R5_pure : pure_rule R5 (fun t => String.eqb (location t) "Lagos, Nigeria").
Proof. intros t w. reflexivity. Qed.
Lemma api_R6_pure : pure_rule R6 (fun t => 5 <? high_value_tx_count t).
Proof. intros t w. reflexivity. Qed.
Lemma api_R8_pure : pure_rule R8 (fun t => negb (is_verified t)).
Proof. intros t w. reflexivity. Qed.
Lemma api_R9_pure :
  pure_rule R9 (fun t => 6 <=? Py.weekday (Py.dt_date (transaction_time t))).
Proof. intros t w. reflexivity. Qed.

(** The whole pass, for a creation date without a zone: the clock is read
    once, and the result is the list of matching rules in the order of
    [create_rules]. *)
Lemma check_fraud_naive t w :
  Py.tzinfo (account_creation_date t) = None ->
  check_fraud t w = (Ok (selected create_rules t w), tick w).
Proof.
  intros Hn. unfold check_fraud, create_rules.
  rewrite (apply_rules_pure _ _ _ _ _ api_R1_pure), (apply_rules_pure _ _ _ _ _ api_R2_pure),
    (apply_rules_pure _ _ _ _ _ api_R3_pure), (apply_rules_pure _ _ _ _ _ api_R4_pure),
    (apply_rules_pure _ _ _ _ _ api_R5_pure), (apply_rules_pure _ _ _ _ _ api_R6_pure).
  rewrite apply_rules_cons, (api_R7_naive _ _ Hn).
  rewrite apply_rules_acc.
  rewrite (apply_rules_pure _ _ _ _ _ api_R8_pure), (apply_rules_pure _ _ _ _ _ api_R9_pure).
  rewrite apply_rules_nil.
  rewrite !selected_cons.
  rewrite (matched_pure _ _ _ _ api_R1_pure), (matched_pure _ _ _ _ api_R2_pure),
    (matched_pure _ _ _ _ api_R3_pure), (matched_pure _ _ _ _ api_R4_pure),
    (matched_pure _ _ _ _ api_R5_pure), (matched_pure _ _ _ _ api_R6_pure),
    (matched_pure _ _ _ _ api_R8_pure), (matched_pure _ _ _ _ api_R9_pure).
  unfold matched at 1. rewrite (api_R7_naive _ _ Hn). cbn [fst].
  rewrite !contribution_matched by discriminate.
  unfold selected at 1. cbn [List.filter map app].
  now destruct (_ <=? 30).
Qed.

Lemma check_fraud_aware t w :
  Py.tzinfo (account_creation_date t) <> None ->
  check_fraud t w =
  (Raise (TypeError "can't subtract offset-naive and offset-aware datetimes"),
   tick w).
Proof.
  intros Hn. unfold check_fraud, create_rules.
  rewrite (apply_rules_pure _ _ _ _ _ api_R1_pure), (apply_rules_pure _ _ _ _ _ api_R2_pure),
    (apply_rules_pure _ _ _ _ _ api_R3_pure), (apply_rules_pure _ _ _ _ _ api_R4_pure),
    (apply_rules_pure _ _ _ _ _ api_R5_pure), (apply_rules_pure _ _ _ _ _ api_R6_pure).
  now rewrite apply_rules_cons, (api_R7_aware _ _ Hn).
Qed.

(** In every case the pass depends on the world through one reading of
    the clock only. *)
Lemma check_fraud_run t w :
  check_fraud t w =
  (match datetime_sub (current_time w) (account_creation_date t) with
   | Ok _ => Ok (selected create_rules t w)
   | Raise e => Raise e
   end, tick w).
Proof.
  destruct (Py.tzinfo (account_creation_date t)) eqn:Hz.
  - rewrite check_fraud_aware, datetime_sub_mixed; auto; congruence.
  - rewrite check_fraud_naive by assumption.
    now destruct (datetime_sub_naive (current_time w) (account_creation_date t))
      as (d & -> & _).
Qed.

Lemma selected_now t w1 w2 :
  current_time w1 = current_time w2 ->
  selected create_rules t w1 = selected create_rules t w2.
Proof.
  intros Hw. unfold create_rules. rewrite !selected_cons.
  rewrite !(matched_pure _ _ _ _ api_R1_pure), !(matched_pure _ _ _ _ api_R2_pure),
    !(matched_pure _ _ _ _ api_R3_pure), !(matched_pure _ _ _ _ api_R4_pure),
    !(matched_pure _ _ _ _ api_R5_pure), !(matched_pure _ _ _ _ api_R6_pure),
    !(matched_pure _ _ _ _ api_R8_pure), !(matched_pure _ _ _ _ api_R9_pure).
  unfold matched. now rewrite !api_R7_run, Hw.
Qed.

(** Distinct rules have distinct entries. *)
Lemma api_entry_of_inj r r' :
  In r create_rules -> In r' create_rules -> entry_of r = entry_of r' -> r = r'.
Proof.
  unfold create_rules. cbn [In]. intros Hr Hr' He.
  repeat (destruct Hr as [<-|Hr]); try contradiction;
    repeat (destruct Hr' as [<-|Hr']); try contradiction;
    solve [reflexivity | discriminate He].
Qed.

End ApiFacts.

(** ** The rules of the dashboard *)

Module AppFacts.
Import App.

Lemma app_R7_run t w :
  condition R7 t w =
  (match datetime_sub (current_time w) (account_creation_date t) with
   | Ok d => Ok (Py.days d <=? 30)
   | Raise e => Raise e
   end, tick w).
Proof.
  unfold R7. cbn [condition].
  unfold mbind, M_bind, mret, M_ret, datetime_now, lift, tick.
  now destruct (datetime_sub _ _).
Qed.

Lemma app_R7_naive t w :
  Py.tzinfo (account_creation_date t) = None ->
  condition R7 t w =
  (Ok ((instant (current_time w) - instant (account_creation_date t))
         / 86400000000 <=? 30), tick w).
Proof.
  intros Hn. rewrite app_R7_run.
  destruct (datetime_sub_naive (current_time w) (account_creation_date t))
    as (d & -> & ->); auto.
Qed.

Lemma app_R7_aware t w :
  Py.tzinfo (account_creation_date t) <> None ->
  condition R7 t w =
  (Raise (TypeError "can't subtract offset-naive and offset-aware datetimes"),
   tick w).
Proof. intros Hn. rewrite app_R7_run, datetime_sub_mixed; auto. Qed.

Lemma app_R1_pure : pure_rule R1 (fun t => PrimFloat.ltb 500000%float (amount t)).
Proof. intros t w. reflexivity. Qed.
Lemma app_R2_pure : pure_rule R2 (fun t => String.eqb (payment_channel t) "web").
Proof. intros t w. reflexivity. Qed.
Lemma app_R3_pure : pure_rule R3 (fun t => String.eqb (device_type t) "iOS").
Proof. intros t w. reflexivity. Qed.
Lemma app_R4_pure :
  pure_rule R4 (fun t =>
    (Py.hour (Py.dt_time (transaction_time t)) <? 5)
    || (23 <=? Py.hour (Py.dt_time (transaction_time t)))).
Proof. intros t w. reflexivity. Qed.
Lemma app_R5_pure : pure_rule R5 (fun t => String.eqb (location t) "Lagos, Nigeria").
Proof. intros t w. reflexivity. Qed.
Lemma app_R6_pure : pure_rule R6 (fun t => 5 <? high_value_tx_count t).
Proof. intros t w. reflexivity. Qed.
Lemma app_R8_pure : pure_rule R8 (fun t => negb (is_verified t)).
Proof. intros t w. reflexivity. Qed.
Lemma app_R9_pure :
  pure_rule R9 (fun t => str_in (transaction_time_weekday t) ["Saturday"; "Sunday"]).
Proof. intros t w. reflexivity. Qed.

(** The inner loop of [evaluate_transactions] on the dashboard's rules. *)
Lemma rules_naive t w :
  Py.tzinfo (account_creation_date t) = None ->
  apply_rules create_fraud_rules t [] w
  = (Ok (selected create_fraud_rules t w), tick w).
Proof.
  intros Hn. unfold create_fraud_rules.
  rewrite (apply_rules_pure _ _ _ _ _ app_R1_pure), (apply_rules_pure _ _ _ _ _ app_R2_pure),
    (apply_rules_pure _ _ _ _ _ app_R3_pure), (apply_rules_pure _ _ _ _ _ app_R4_pure),
    (apply_rules_pure _ _ _ _ _ app_R5_pure), (apply_rules_pure _ _ _ _ _ app_R6_pure).
  rewrite apply_rules_cons, (app_R7_naive _ _ Hn).
  rewrite apply_rules_acc.
  rewrite (apply_rules_pure _ _ _ _ _ app_R8_pure), (apply_rules_pure _ _ _ _ _ app_R9_pure).
  rewrite apply_rules_nil.
  rewrite !selected_cons.
  rewrite (matched_pure _ _ _ _ app_R1_pure), (matched_pure _ _ _ _ app_R2_pure),
    (matched_pure _ _ _ _ app_R3_pure), (matched_pure _ _ _ _ app_R4_pure),
    (matched_pure _ _ _ _ app_R5_pure), (matched_pure _ _ _ _ app_R6_pure),
    (matched_pure _ _ _ _ app_R8_pure), (matched_pure _ _ _ _ app_R9_pure).
  unfold matched at 1. rewrite (app_R7_naive _ _ Hn). cbn [fst].
  rewrite !contribution_matched by discriminate.
  unfold selected at 1. cbn [List.filter map app].
  now destruct (_ <=? 30).
Qed.

Lemma rules_aware t w :
  Py.tzinfo (account_creation_date t) <> None ->
  apply_rules create_fraud_rules t [] w =
  (Raise (TypeError "can't subtract offset-naive and offset-aware datetimes"),
   tick w).
Proof.
  intros Hn. unfold create_fraud_rules.
  rewrite (apply_rules_pure _ _ _ _ _ app_R1_pure), (apply_rules_pure _ _ _ _ _ app_R2_pure),
    (apply_rules_pure _ _ _ _ _ app_R3_pure), (apply_rules_pure _ _ _ _ _ app_R4_pure),
    (apply_rules_pure _ _ _ _ _ app_R5_pure), (apply_rules_pure _ _ _ _ _ app_R6_pure).
  now rewrite apply_rules_cons, (app_R7_aware _ _ Hn).
Qed.

Lemma rules_run t w :
  apply_rules create_fraud_rules t [] w =
  (match datetime_sub (current_time w) (account_creation_date t) with
   | Ok _ => Ok (selected create_fraud_rules t w)
   | Raise e => Raise e
   end, tick w).
Proof.
  destruct (Py.tzinfo (account_creation_date t)) eqn:Hz.
  - rewrite rules_aware, datetime_sub_mixed; auto; congruence.
  - rewrite rules_naive by assumption.
    now destruct (datetime_sub_naive (current_time w) (account_creation_date t))
      as (d & -> & _).
Qed.

Lemma app_entry_of_inj r r' :
  In r create_fraud_rules -> In r' create_fraud_rules ->
  entry_of r = entry_of r' -> r = r'.
Proof.
  unfold create_fraud_rules. cbn [In]. intros Hr Hr' He.
  repeat (destruct Hr as [<-|Hr]); try contradiction;
    repeat (destruct Hr' as [<-|Hr']); try contradiction;
    solve [reflexivity | discriminate He].
Qed.

(** One turn of the outer loop. *)
Lemma evaluate_loop_cons tx rest rules results w :
  evaluate_loop (tx :: rest) rules results w =
  match apply_rules rules tx [] w with
  | (Ok ms, w') =>
      evaluate_loop rest rules
        (results ++ [mkrow (id tx) (match ms with [] => "clear" | _ => "flagged" end)
                           ms (transaction_time_weekday tx) (location tx)])%list w'
  | (Raise e, w') => (Raise e, w')
  end.
Proof.
  cbn [evaluate_loop]. unfold mbind, M_bind.
  now destruct (apply_rules rules tx [] w) as [[ms|e] w'].
Qed.

End AppFacts.

(** ** Consequences for the two programs *)

Lemma weekday_range d : 0 <= Py.weekday d < 7.
Proof. unfold Py.weekday. apply Z.mod_pos_bound. lia. Qed.

Lemma str_in_weekend s :
  App.str_in s ["Saturday"; "Sunday"] = true <-> s = "Saturday" \/ s = "Sunday".
Proof.
  unfold App.str_in. cbn [existsb]. rewrite !orb_true_iff, !String.eqb_eq.
  intuition discriminate.
Qed.

Lemma rule_actions r :
  In r Api.create_rules -> action r = "review" \/ action r = "reject".
Proof.
  unfold Api.create_rules. cbn [In]. intros Hr.
  repeat (destruct Hr as [<-|Hr]); try contradiction; cbn; tauto.
Qed.

Lemma check_fraud_ok t w ms :
  fst (Api.check_fraud t w) = Ok ms -> ms = selected Api.create_rules t w.
Proof.
  rewrite ApiFacts.check_fraud_run. cbn [fst].
  destruct (datetime_sub _ _); congruence.
Qed.

Lemma rules_ok u w ms :
  fst (apply_rules App.create_fraud_rules u [] w) = Ok ms ->
  ms = selected App.create_fraud_rules u w.
Proof.
  rewrite AppFacts.rules_run. cbn [fst].
  destruct (datetime_sub _ _); congruence.
Qed.

Lemma check_transaction_run t w :
  fst (Api.check_transaction t w) =
  match fst (Api.check_fraud t w) with
  | Ok [] => Ok (Api.mkresponse (Api.id t) "clear" (DetailsText "No fraud detected"))
  | Ok ms => Ok (Api.mkresponse (Api.id t) "flagged" (DetailsList ms))
  | Raise e => Raise e
  end.
Proof.
  unfold Api.check_transaction, mbind, M_bind.
  destruct (Api.check_fraud t w) as [[[|e ms]|e] w']; reflexivity.
Qed.

Lemma evaluate_loop_rows rules txs : forall results w rows,
  fst (App.evaluate_loop txs rules results w) = Ok rows ->
  exists new, rows = (results ++ new)%list /\ Forall2 (row_of rules) txs new.
Proof.
  induction txs as [|tx txs IH]; intros results w rows.
  - cbn. intros [= <-]. exists []. split; [now rewrite app_nil_r|constructor].
  - rewrite AppFacts.evaluate_loop_cons.
    destruct (apply_rules rules tx [] w) as [[ms|e] w'] eqn:Hrun; [|discriminate].
    intros H. apply IH in H. destruct H as (new & -> & Hnew).
    eexists (_ :: new). split; [now rewrite <- app_assoc|].
    constructor; [|assumption].
    repeat split; cbn.
    + exists w. now rewrite Hrun.
    + destruct ms; [reflexivity|discriminate].
    + destruct ms; [reflexivity|discriminate].
    + destruct ms; [discriminate|discriminate].
    + destruct ms; [congruence|reflexivity].
Qed.

Lemma evaluate_loop_naive txs : forall results w,
  Forall (fun u => Py.tzinfo (App.account_creation_date u) = None) txs ->
  exists rows w',
    App.evaluate_loop txs App.create_fraud_rules results w = (Ok rows, w').
Proof.
  induction txs as [|tx txs IH]; intros results w Hn.
  - now exists results, w.
  - apply Forall_cons in Hn as [Htx Hn].
    rewrite AppFacts.evaluate_loop_cons, AppFacts.rules_naive by assumption.
    now apply IH.
Qed.

(** R4 of the scoring API: from 23:00:00 on, or up to 05:00:00, both
    bounds included. *)
Lemma Api_R4_window (t : Api.Transaction) (w : world) :
  Py.valid_time (Py.dt_time (Api.transaction_time t)) = true ->
  (matched Api.R4 t w = true <->
   82800000000 <= time_of_day (Py.dt_time (Api.transaction_time t))
   \/ time_of_day (Py.dt_time (Api.transaction_time t)) <= 18000000000).
Proof.
  intros Hv. rewrite (matched_pure _ _ _ _ ApiFacts.api_R4_pure), orb_true_iff.
  rewrite !time_le_iff by (assumption || reflexivity). reflexivity.
Qed.

(** R4 of the dashboard: from 23:00:00 on, or before 05:00:00. *)
Lemma App_R4_window (u : App.Transaction) (w : world) :
  Py.valid_time (Py.dt_time (App.transaction_time u)) = true ->
  (matched App.R4 u w = true <->
   82800000000 <= time_of_day (Py.dt_time (App.transaction_time u))
   \/ time_of_day (Py.dt_time (App.transaction_time u)) < 18000000000).
Proof.
  intros Hv. rewrite (matched_pure _ _ _ _ AppFacts.app_R4_pure), orb_true_iff.
  rewrite Z.ltb_lt, Z.leb_le.
  apply valid_time_bounds in Hv. unfold time_of_day, Py.secs_of. lia.
Qed.

(** X22.  The two versions of R4 disagree at one instant of the day only. *)
Lemma R4_disagree_at_five (t : Api.Transaction) (u : App.Transaction) (w : world) :
  App.transaction_time u = Api.transaction_time t ->
  Py.valid_time (Py.dt_time (Api.transaction_time t)) = true ->
  (matched Api.R4 t w <> matched App.R4 u w
   <-> time_of_day (Py.dt_time (Api.transaction_time t)) = 18000000000).
Proof.
  intros Htime Hv.
  pose proof (Api_R4_window t w Hv) as Ha.
  assert (Hv' : Py.valid_time (Py.dt_time (App.transaction_time u)) = true)
    by now rewrite Htime.
  pose proof (App_R4_window u w Hv') as Hb. rewrite Htime in Hb.
  destruct (matched Api.R4 t w), (matched App.R4 u w); split; intros H;
    solve [congruence | lia | exfalso; lia].
Qed.

(** ** Validation *)

Section Fields.
Context {A : Type} (conv : raw -> option A).
Implicit Types (req : gmap string raw) (name k : string).

Lemma field_ok req name a :
  req !! name ≫= conv = Some a -> field conv name req = inr a.
Proof.
  unfold field. destruct (req !! name) as [v|]; cbn; [|discriminate].
  now intros ->.
Qed.

Lemma field_missing req name :
  req !! name = None -> field conv name req = inl [(name, Missing)].
Proof. unfold field. now intros ->. Qed.

Lemma field_delete_eq req name :
  field conv name (delete name req) = inl [(name, Missing)].
Proof. apply field_missing, lookup_delete_eq. Qed.

Lemma field_delete_ne req name k :
  k <> name -> field conv name (delete k req) = field conv name req.
Proof. intros Hk. unfold field. now rewrite lookup_delete_ne. Qed.

Lemma field_insert_eq req name v a :
  conv v = Some a -> field conv name (<[name := v]> req) = inr a.
Proof. intros Hv. unfold field. now rewrite lookup_insert_eq, Hv. Qed.

Lemma field_insert_ne req name k v :
  k <> name -> field conv name (<[k := v]> req) = field conv name req.
Proof. intros Hk. unfold field. now rewrite lookup_insert_ne. Qed.

End Fields.

Ltac fields :=
  repeat first
    [ rewrite field_delete_eq
    | rewrite field_delete_ne by discriminate
    | erewrite field_insert_eq by eassumption
    | rewrite field_insert_ne by discriminate
    | erewrite field_ok by eassumption
    | rewrite field_missing by assumption ].

(** * The claims *)

(** C1, amended.  In the scoring API rule R9 matches exactly when the day
    of the week of [transaction_time] is Sunday (weekday number 6): a
    Saturday does not match.  In the dashboard R9 matches exactly when the
    supplied label [transaction_time_weekday] is "Saturday" or "Sunday".
    In both programs the result of an evaluation holds R9's entry, with
    action "reject", exactly when R9 matches. *)
Theorem C1_R9_restricted_period
    (t : Api.Transaction) (u : App.Transaction) (w : world)
    (ms us : list entry)
    (Hms : fst (Api.check_fraud t w) = Ok ms)
    (Hus : fst (apply_rules App.create_fraud_rules u [] w) = Ok us) :
  (matched Api.R9 t w = true
     <-> Py.weekday (Py.dt_date (Api.transaction_time t)) = 6)
  /\ (matched App.R9 u w = true
     <-> App.transaction_time_weekday u = "Saturday"
         \/ App.transaction_time_weekday u = "Sunday")
  /\ (In (mkentry "reject" "Transaction during restricted period") ms
     <-> matched Api.R9 t w = true)
  /\ (In (mkentry "reject" "Transaction on weekend") us
     <-> matched App.R9 u w = true).
Proof.
  apply check_fraud_ok in Hms. apply rules_ok in Hus. subst ms us.
  split; [|split; [|split]].
  - rewrite (matched_pure _ _ _ _ ApiFacts.api_R9_pure).
    pose proof (weekday_range (Py.dt_date (Api.transaction_time t))).
    rewrite Z.leb_le. lia.
  - rewrite (matched_pure _ _ _ _ AppFacts.app_R9_pure). apply str_in_weekend.
  - rewrite selected_In. split.
    + intros (r & Hr & Hm & He).
      assert (r = Api.R9) as <-; [|assumption].
      apply ApiFacts.api_entry_of_inj; [assumption| |assumption].
      unfold Api.create_rules. cbn [In]. tauto.
    + intros Hm. exists Api.R9. repeat split; [|assumption].
      unfold Api.create_rules. cbn [In]. tauto.
  - rewrite selected_In. split.
    + intros (r & Hr & Hm & He).
      assert (r = App.R9) as <-; [|assumption].
      apply AppFacts.app_entry_of_inj; [assumption| |assumption].
      unfold App.create_fraud_rules. cbn [In]. tauto.
    + intros Hm. exists App.R9. repeat split; [|assumption].
      unfold App.create_fraud_rules. cbn [In]. tauto.
Qed.

Lemma C1_R9_restricted_period_witness :
  fst (Api.check_fraud sunday_tx w2024)
    = Ok [mkentry "reject" "Transaction during restricted period"]
  /\ fst (apply_rules App.create_fraud_rules sunday_row [] w2024)
    = Ok [mkentry "reject" "Transaction on weekend"]
  /\ (matched Api.R9 sunday_tx w2024 = true
     <-> Py.weekday (Py.dt_date (Api.transaction_time sunday_tx)) = 6).
Proof.
  split; [reflexivity|]. split; [reflexivity|].
  exact (proj1 (C1_R9_restricted_period sunday_tx sunday_row w2024 _ _
                  eq_refl eq_refl)).
Defined.

(** C1 as stated fails on a Saturday: 16 November 2024 is a Saturday
    (weekday number 5), and R9 of the scoring API does not match a
    transaction made that day, whose evaluation finds nothing. *)
Lemma C1_saturday_not_matched :
  Py.weekday (Py.dt_date (Api.transaction_time saturday_tx)) = 5
  /\ matched Api.R9 saturday_tx w2024 = false
  /\ fst (Api.check_fraud saturday_tx w2024) = Ok [].
Proof. vm_compute. repeat split. Qed.

(** C2, amended.  Both models declare ten fields, none with a default: the
    nine fields of the data model and [transaction_time_weekday] (a
    timestamp in the scoring API, a string in the dashboard).  A request
    supplying the ten, each well-typed, validates and produces the
    Transaction holding the converted values; leaving out any one of the
    ten, [transaction_time_weekday] included, fails validation with that
    field reported missing.  So a request with exactly the nine fields of
    the data model is rejected. *)
Theorem C2_ten_mandatory_fields
    (req : gmap string raw) i a pc dv tt loc n acd v
    (v_api v_app : raw) (wd : Py.datetime) (label : string)
    (Hid : req !! "id" ≫= as_str = Some i)
    (Hamount : req !! "amount" ≫= as_float = Some a)
    (Hchannel : req !! "payment_channel" ≫= as_str = Some pc)
    (Hdevice : req !! "device_type" ≫= as_str = Some dv)
    (Htime : req !! "transaction_time" ≫= as_datetime = Some tt)
    (Hlocation : req !! "location" ≫= as_str = Some loc)
    (Hcount : req !! "high_value_tx_count" ≫= as_int = Some n)
    (Hcreated : req !! "account_creation_date" ≫= as_datetime = Some acd)
    (Hverified : req !! "is_verified" ≫= as_bool = Some v)
    (Hnine : req !! "transaction_time_weekday" = None)
    (Hwd_api : as_datetime v_api = Some wd)
    (Hwd_app : as_str v_app = Some label) :
  Api.validate (<["transaction_time_weekday" := v_api]> req)
    = inr (Api.mkTransaction i a pc dv tt loc n acd v wd)
  /\ App.validate (<["transaction_time_weekday" := v_app]> req)
    = inr (App.mkTransaction i a pc dv tt loc n acd v label)
  /\ Api.validate req = inl [("transaction_time_weekday", Missing)]
  /\ App.validate req = inl [("transaction_time_weekday", Missing)]
  /\ (forall k, In k declared_fields ->
        Api.validate (delete k (<["transaction_time_weekday" := v_api]> req))
          = inl [(k, Missing)]
        /\ App.validate (delete k (<["transaction_time_weekday" := v_app]> req))
          = inl [(k, Missing)]).
Proof.
  unfold Api.validate, App.validate.
  split; [|split; [|split; [|split]]].
  - fields. reflexivity.
  - fields. reflexivity.
  - fields. reflexivity.
  - fields. reflexivity.
  - intros k Hk. unfold declared_fields, nine_fields in Hk. cbn [app In] in Hk.
    repeat (destruct Hk as [<-|Hk]); try contradiction;
      (split; fields; reflexivity).
Qed.

Lemma C2_ten_mandatory_fields_witness :
  Api.validate (<["transaction_time_weekday" := RStr "2024-11-17T00:00:00"]>
                  sample_payload)
  = inr (Api.mkTransaction "TXN002" 10000%float "web" "Android"
           (Py.naive (Py.mkdate 2024 11 17) noon) "Ibadan, Nigeria" 1
           (Py.naive (Py.mkdate 2024 11 17) noon) true
           (Py.naive (Py.mkdate 2024 11 17) (Py.mktime 0 0 0 0))).
Proof.
  refine (proj1 (C2_ten_mandatory_fields sample_payload
            "TXN002" 10000%float "web" "Android"
            (Py.naive (Py.mkdate 2024 11 17) noon) "Ibadan, Nigeria" 1
            (Py.naive (Py.mkdate 2024 11 17) noon) true
            (RStr "2024-11-17T00:00:00") (RStr "Sunday")
            (Py.naive (Py.mkdate 2024 11 17) (Py.mktime 0 0 0 0)) "Sunday"
            _ _ _ _ _ _ _ _ _ _ _ _));
    vm_compute; reflexivity.
Defined.

(** C2 as stated fails on the sample payload of the scoring API: it
    supplies exactly the nine fields of the data model, all well-typed,
    and both models reject it, [transaction_time_weekday] being
    required. *)
Lemma C2_nine_fields_rejected :
  dom sample_payload = list_to_set nine_fields
  /\ Api.validate sample_payload = inl [("transaction_time_weekday", Missing)]
  /\ App.validate sample_payload = inl [("transaction_time_weekday", Missing)].
Proof. repeat split; vm_compute; reflexivity. Qed.

(** C3, amended.  When no rule matches, the endpoint answers
    [{"transaction_id": id, "status": "clear", "details": "No fraud detected"}]:
    the details field is that string, not an empty list.  When some rule
    matches it answers with status "flagged" and, as details, the list of
    matches, each an action "review" or "reject" with its reason. *)
Theorem C3_response_shape (t : Api.Transaction) (w : world) (ms : list entry)
    (Hms : fst (Api.check_fraud t w) = Ok ms) :
  fst (Api.check_transaction t w)
  = Ok (match ms with
        | [] => Api.mkresponse (Api.id t) "clear" (DetailsText "No fraud detected")
        | _ => Api.mkresponse (Api.id t) "flagged" (DetailsList ms)
        end)
  /\ Forall (fun e => e_action e = "review" \/ e_action e = "reject") ms.
Proof.
  split.
  - rewrite check_transaction_run, Hms. now destruct ms.
  - apply check_fraud_ok in Hms. subst ms. apply Forall_forall.
    intros e He. apply list_elem_of_In, selected_In in He.
    destruct He as (r & Hr & _ & <-). now apply rule_actions.
Qed.

Lemma C3_response_shape_witness :
  fst (Api.check_fraud wednesday_tx w2024) = Ok []
  /\ fst (Api.check_transaction wednesday_tx w2024)
     = Ok (Api.mkresponse "TXN100" "clear" (DetailsText "No fraud detected")).
Proof.
  split; [reflexivity|].
  exact (proj1 (C3_response_shape wednesday_tx w2024 [] eq_refl)).
Defined.

(** C3 as stated fails on a transaction made at noon on Wednesday
    13 November 2024 that matches no rule: the details of the answer are
    the string "No fraud detected" and not the empty list. *)
Lemma C3_clear_details_not_empty_list :
  fst (Api.check_fraud wednesday_tx w2024) = Ok []
  /\ fst (Api.check_transaction wednesday_tx w2024)
     <> Ok (Api.mkresponse "TXN100" "clear" (DetailsList [])).
Proof. split; [reflexivity|]. vm_compute. discriminate. Qed.

(** C4 at its boundary.  At exactly 05:00:00 R4 of the scoring API matches
    and R4 of the dashboard does not, so that the dashboard finds nothing
    in a transaction the API sends to review; at exactly 23:00:00 both
    match. *)
Theorem C4_five_oclock :
  time_of_day (Py.dt_time (App.transaction_time five_row)) = 18000000000
  /\ matched Api.R4 five_tx w2024 = true
  /\ matched App.R4 five_row w2024 = false
  /\ fst (Api.check_fraud five_tx w2024) = Ok [mkentry "review" "Late-night transaction"]
  /\ fst (apply_rules App.create_fraud_rules five_row [] w2024) = Ok []
  /\ matched Api.R4 eleven_tx w2024 = true
  /\ matched App.R4 eleven_row w2024 = true.
Proof. repeat split; vm_compute; reflexivity. Qed.

(** C5.  The status of an evaluation is "clear" exactly when its match
    sequence is empty and "flagged" exactly when it is not: for the answer
    of the scoring endpoint, and for every row of the dashboard's batch
    evaluation, whose details are the matches of its transaction. *)
Theorem C5_status_iff_empty
    (t : Api.Transaction) (w : world) (ms : list entry)
    (txs : list App.Transaction) (rules : list (FraudRule App.Transaction))
    (w' : world) (rows : list App.row)
    (Hms : fst (Api.check_fraud t w) = Ok ms)
    (Hrows : fst (App.evaluate_transactions txs rules w') = Ok rows) :
  (exists r, fst (Api.check_transaction t w) = Ok r
     /\ (Api.status r = "clear" <-> ms = [])
     /\ (Api.status r = "flagged" <-> ms <> []))
  /\ Forall2 (row_of rules) txs rows.
Proof.
  split.
  - rewrite check_transaction_run, Hms.
    destruct ms as [|e ms]; eexists; (split; [reflexivity|]); cbn;
      split; split; congruence.
  - apply evaluate_loop_rows in Hrows. now destruct Hrows as (new & -> & H).
Qed.

Lemma C5_status_iff_empty_witness :
  fst (Api.check_fraud sunday_tx w2024)
    = Ok [mkentry "reject" "Transaction during restricted period"]
  /\ fst (App.evaluate_transactions [wednesday_row; sunday_row]
           App.create_fraud_rules w2024)
    = Ok [App.mkrow "TXN100" "clear" [] "Wednesday" "Accra, Ghana";
          App.mkrow "TXN100" "flagged" [mkentry "reject" "Transaction on weekend"]
                    "Sunday" "Accra, Ghana"]
  /\ exists r, fst (Api.check_transaction sunday_tx w2024) = Ok r
     /\ (Api.status r = "clear"
         <-> [mkentry "reject" "Transaction during restricted period"] = [])
     /\ (Api.status r = "flagged"
         <-> [mkentry "reject" "Transaction during restricted period"] <> []).
Proof.
  split; [reflexivity|]. split; [reflexivity|].
  exact (proj1 (C5_status_iff_empty sunday_tx w2024 _
                  [wednesday_row; sunday_row] App.create_fraud_rules w2024 _
                  eq_refl eq_refl)).
Defined.

(** C6, amended.  For every Transaction whose creation date carries no
    time zone, the evaluator goes through the whole rule list in its
    order and never stops at a match: each of the nine conditions returns
    its verdict, the result is the list of the entries of all the rules
    that match, a rule being listed exactly when it matches, whatever
    matched before it and with whatever action, and the entries come in
    the order R1..R9 in which the rules are defined. *)
Theorem C6_all_rules_in_order
    (t : Api.Transaction) (u : App.Transaction) (w : world)
    (Ht : Py.tzinfo (Api.account_creation_date t) = None)
    (Hu : Py.tzinfo (App.account_creation_date u) = None) :
  (fst (Api.check_fraud t w)
     = Ok (map entry_of (List.filter (fun r => matched r t w) Api.create_rules))
   /\ (forall r, In r Api.create_rules ->
         (exists b, fst (condition r t w) = Ok b)
         /\ (In (entry_of r) (selected Api.create_rules t w)
             <-> matched r t w = true))
   /\ sublist (selected Api.create_rules t w) (map entry_of Api.create_rules)
   /\ map rule_id Api.create_rules
      = ["R1"; "R2"; "R3"; "R4"; "R5"; "R6"; "R7"; "R8"; "R9"])
  /\
  (fst (apply_rules App.create_fraud_rules u [] w)
     = Ok (map entry_of (List.filter (fun r => matched r u w) App.create_fraud_rules))
   /\ (forall r, In r App.create_fraud_rules ->
         (exists b, fst (condition r u w) = Ok b)
         /\ (In (entry_of r) (selected App.create_fraud_rules u w)
             <-> matched r u w = true))
   /\ sublist (selected App.create_fraud_rules u w)
              (map entry_of App.create_fraud_rules)
   /\ map rule_id App.create_fraud_rules
      = ["R1"; "R2"; "R3"; "R4"; "R5"; "R6"; "R7"; "R8"; "R9"]).
Proof.
  split; (split; [|split; [|split; [apply selected_sublist|reflexivity]]]).
  - now rewrite ApiFacts.check_fraud_naive.
  - intros r Hr. split.
    + revert Hr. unfold Api.create_rules. cbn [In]. intros Hr.
      repeat (destruct Hr as [<-|Hr]); try contradiction;
        try (eexists; reflexivity).
      rewrite ApiFacts.api_R7_naive by assumption. eexists; reflexivity.
    + rewrite selected_In. split.
      * intros (r' & Hr' & Hm & He).
        now rewrite <- (ApiFacts.api_entry_of_inj r' r Hr' Hr He).
      * intros Hm. now exists r.
  - now rewrite AppFacts.rules_naive.
  - intros r Hr. split.
    + revert Hr. unfold App.create_fraud_rules. cbn [In]. intros Hr.
      repeat (destruct Hr as [<-|Hr]); try contradiction;
        try (eexists; reflexivity).
      rewrite AppFacts.app_R7_naive by assumption. eexists; reflexivity.
    + rewrite selected_In. split.
      * intros (r' & Hr' & Hm & He).
        now rewrite <- (AppFacts.app_entry_of_inj r' r Hr' Hr He).
      * intros Hm. now exists r.
Qed.

Lemma C6_all_rules_in_order_witness :
  Py.tzinfo (Api.account_creation_date
     (scenario "TXN001" (Py.naive (Py.mkdate 2024 10 22) (Py.mktime 9 0 0 0))
               (Py.naive (Py.mkdate 2024 11 12) noon))) = None
  /\ Py.tzinfo (App.account_creation_date sunday_row) = None
  /\ fst (Api.check_fraud
         (scenario "TXN001" (Py.naive (Py.mkdate 2024 10 22) (Py.mktime 9 0 0 0))
                   (Py.naive (Py.mkdate 2024 11 12) noon)) w2024)
    = Ok [mkentry "review" "High transaction amount";
          mkentry "reject" "Web channel transaction";
          mkentry "review" "Late-night transaction";
          mkentry "reject" "Transaction from Lagos, Nigeria"].
Proof.
  split; [reflexivity|]. split; [reflexivity|].
  exact (proj1 (proj1 (C6_all_rules_in_order
    (scenario "TXN001" (Py.naive (Py.mkdate 2024 10 22) (Py.mktime 9 0 0 0))
              (Py.naive (Py.mkdate 2024 11 12) noon))
    sunday_row w2024 eq_refl eq_refl))).
Defined.

(** C6 as stated fails on a validated Transaction whose creation date
    carries a zone, made through the web on a Sunday by an unverified
    account.  The conditions of R2, R8 and R9 hold of it, but the
    evaluation stops at R7, which raises: it is the evaluation of R1 to
    R7 alone, R8 and R9 are never evaluated, and no match sequence comes
    out, R2's match included. *)
Lemma C6_zoned_stops_at_R7 :
  Api.validate zoned_unverified_payload = inr zoned_unverified_tx
  /\ matched Api.R2 zoned_unverified_tx w2024 = true
  /\ matched Api.R8 zoned_unverified_tx w2024 = true
  /\ matched Api.R9 zoned_unverified_tx w2024 = true
  /\ Api.check_fraud zoned_unverified_tx w2024
     = apply_rules [Api.R1; Api.R2; Api.R3; Api.R4; Api.R5; Api.R6; Api.R7]
                   zoned_unverified_tx [] w2024
  /\ fst (Api.check_fraud zoned_unverified_tx w2024)
     = Raise (TypeError "can't subtract offset-naive and offset-aware datetimes").
Proof. repeat split; vm_compute; reflexivity. Qed.



(** C8, amended.  Evaluation returns, for every Transaction whose
    [account_creation_date] carries no time zone: each of the nine
    conditions returns a boolean, [check_fraud] returns its match list,
    the endpoint returns its answer, and the dashboard's batch evaluation
    returns its rows. *)
Theorem C8_evaluation_returns
    (t : Api.Transaction) (txs : list App.Transaction) (w : world)
    (Ht : Py.tzinfo (Api.account_creation_date t) = None)
    (Htxs : Forall (fun u => Py.tzinfo (App.account_creation_date u) = None) txs) :
  (forall r, In r Api.create_rules -> exists b, fst (condition r t w) = Ok b)
  /\ (exists ms, fst (Api.check_fraud t w) = Ok ms)
  /\ (exists r, fst (Api.check_transaction t w) = Ok r)
  /\ (forall u r, In u txs -> In r App.create_fraud_rules ->
        exists b, fst (condition r u w) = Ok b)
  /\ (exists rows, fst (App.evaluate_transactions txs App.create_fraud_rules w)
                   = Ok rows).
Proof.
  split; [|split; [|split; [|split]]].
  - unfold Api.create_rules. cbn [In]. intros r Hr.
    repeat (destruct Hr as [<-|Hr]); try contradiction;
      try (eexists; reflexivity).
    rewrite ApiFacts.api_R7_naive by assumption. eexists; reflexivity.
  - rewrite ApiFacts.check_fraud_naive by assumption. eexists; reflexivity.
  - rewrite check_transaction_run, ApiFacts.check_fraud_naive by assumption.
    cbn [fst]. destruct (selected _ _ _); eexists; reflexivity.
  - intros u r Hu. unfold App.create_fraud_rules. cbn [In]. intros Hr.
    repeat (destruct Hr as [<-|Hr]); try contradiction;
      try (eexists; reflexivity).
    rewrite AppFacts.app_R7_naive; [eexists; reflexivity|].
    rewrite Forall_forall in Htxs. now apply Htxs, list_elem_of_In.
  - destruct (evaluate_loop_naive txs [] w Htxs) as (rows & w' & Hrun).
    exists rows. unfold App.evaluate_transactions. now rewrite Hrun.
Qed.

Lemma C8_evaluation_returns_witness :
  Py.tzinfo (Api.account_creation_date sunday_tx) = None
  /\ exists ms, fst (Api.check_fraud sunday_tx w2024) = Ok ms.
Proof.
  split; [reflexivity|].
  refine (proj1 (proj2 (C8_evaluation_returns sunday_tx
                          [wednesday_row; sunday_row] w2024 eq_refl _))).
  repeat constructor.
Defined.

(** C8 as stated fails on a validated Transaction whose creation date
    carries a zone: the request with ["2024-11-17T12:00:00Z"] validates,
    and evaluating the resulting Transaction raises [TypeError] when R7
    subtracts the zoned date from the naive current time.  The same
    happens in the dashboard. *)
Lemma C8_zoned_creation_date_raises :
  Api.validate zoned_payload = inr zoned_tx
  /\ fst (Api.check_fraud zoned_tx w2024)
     = Raise (TypeError "can't subtract offset-naive and offset-aware datetimes")
  /\ fst (Api.check_transaction zoned_tx w2024)
     = Raise (TypeError "can't subtract offset-naive and offset-aware datetimes")
  /\ fst (App.evaluate_transactions [zoned_row] App.create_fraud_rules w2024)
     = Raise (TypeError "can't subtract offset-naive and offset-aware datetimes").
Proof. repeat split; vm_compute; reflexivity. Qed.

(** C9.  The result of an evaluation is a function of the Transaction and
    of the current time alone: two worlds whose clocks show the same
    instant give the same result of [check_fraud] and the same answer of
    the endpoint, whatever else differs between them.  The clock is read
    once in an evaluation, by R7. *)
Theorem C9_deterministic_given_now
    (t : Api.Transaction) (w1 w2 : world)
    (Hnow : current_time w1 = current_time w2) :
  fst (Api.check_fraud t w1) = fst (Api.check_fraud t w2)
  /\ fst (Api.check_transaction t w1) = fst (Api.check_transaction t w2)
  /\ reads (snd (Api.check_fraud t w1)) = S (reads w1)
  /\ (forall r, In r Api.create_rules -> r <> Api.R7 ->
        snd (condition r t w1) = w1).
Proof.
  assert (H : fst (Api.check_fraud t w1) = fst (Api.check_fraud t w2)).
  { rewrite !ApiFacts.check_fraud_run. cbn [fst].
    now rewrite Hnow, (ApiFacts.selected_now t w1 w2 Hnow). }
  split; [exact H|]. split; [|split].
  - now rewrite !check_transaction_run, H.
  - now rewrite ApiFacts.check_fraud_run.
  - unfold Api.create_rules. cbn [In]. intros r Hr Hne.
    repeat (destruct Hr as [<-|Hr]); try contradiction; reflexivity.
Qed.

(** Two evaluations in a row under a clock that stands still. *)
Lemma C9_deterministic_given_now_witness :
  current_time w2024 = current_time (snd (Api.check_fraud sunday_tx w2024))
  /\ fst (Api.check_fraud sunday_tx w2024)
     = fst (Api.check_fraud sunday_tx (snd (Api.check_fraud sunday_tx w2024))).
Proof.
  split; [reflexivity|].
  exact (proj1 (C9_deterministic_given_now sunday_tx w2024
                  (snd (Api.check_fraud sunday_tx w2024)) eq_refl)).
Defined.

(** C10, amended.  When the creation date of the account carries no time
    zone and is later than the current time, the difference between the
    current time and the creation date is a negative number of whole
    days, hence at most 30, and R7 matches: in the scoring API and in the
    dashboard alike. *)
Theorem C10_future_creation_date
    (t : Api.Transaction) (u : App.Transaction) (w : world)
    (Hnow : Py.valid_datetime (current_time w) = true)
    (Hacd : Py.valid_datetime (Api.account_creation_date t) = true)
    (Hu : App.account_creation_date u = Api.account_creation_date t)
    (Hnaive : Py.tzinfo (Api.account_creation_date t) = None)
    (Hfuture : datetime_lt (current_time w) (Api.account_creation_date t) = Ok true) :
  (exists d, datetime_sub (current_time w) (Api.account_creation_date t) = Ok d
             /\ Py.days d < 0)
  /\ fst (condition Api.R7 t w) = Ok true
  /\ fst (condition App.R7 u w) = Ok true
  /\ In (mkentry "review" "Account created recently")
        (selected Api.create_rules t w)
  /\ fst (Api.check_fraud t w) = Ok (selected Api.create_rules t w).
Proof.
  assert (Hlt : instant (current_time w) < instant (Api.account_creation_date t)).
  { apply lex_lt_instant; [assumption..|].
    unfold datetime_lt in Hfuture. rewrite Hnaive in Hfuture.
    cbn [current_time Py.naive Py.tzinfo] in Hfuture.
    destruct (lex_cmp _ _); [discriminate|reflexivity|discriminate]. }
  assert (Hdays : (instant (current_time w) - instant (Api.account_creation_date t))
                    / 86400000000 < 0) by zdiv.
  assert (Hc : fst (condition Api.R7 t w) = Ok true).
  { rewrite ApiFacts.api_R7_naive by assumption. cbn [fst]. f_equal. apply Z.leb_le. lia. }
  split; [|split; [exact Hc|split; [|split]]].
  - destruct (datetime_sub_naive (current_time w) (Api.account_creation_date t))
      as (d & Hd & Hdd); [reflexivity|assumption|].
    exists d. split; [assumption|]. now rewrite Hdd.
  - rewrite AppFacts.app_R7_naive by congruence. cbn [fst]. f_equal.
    rewrite Hu. apply Z.leb_le. lia.
  - apply selected_In. exists Api.R7. split; [|split; [|reflexivity]].
    + unfold Api.create_rules. cbn [In]. tauto.
    + unfold matched. now rewrite Hc.
  - now rewrite ApiFacts.check_fraud_naive.
Qed.

Lemma C10_future_creation_date_witness :
  Py.tzinfo (Api.account_creation_date future_tx) = None
  /\ datetime_lt (current_time w2024) (Api.account_creation_date future_tx) = Ok true
  /\ fst (condition Api.R7 future_tx w2024) = Ok true.
Proof.
  split; [reflexivity|]. split; [reflexivity|].
  exact (proj1 (proj2 (C10_future_creation_date future_tx future_row w2024
                         eq_refl eq_refl eq_refl eq_refl eq_refl))).
Defined.

(** C10 as stated fails on a validated Transaction whose creation date
    is in the future and carries a zone: 1 January 2030 at 00:00 UTC is
    more than five years after the clock's 1 December 2024, whatever the
    zone of the clock, yet R7 raises [TypeError] on it instead of
    matching, and so does the evaluation. *)
Lemma C10_zoned_future_date_raises :
  Api.validate future_zoned_payload = inr future_zoned_tx
  /\ instant (current_time w2024) + 5 * 365 * 86400000000
     < instant (Api.account_creation_date future_zoned_tx)
  /\ fst (condition Api.R7 future_zoned_tx w2024)
     = Raise (TypeError "can't subtract offset-naive and offset-aware datetimes")
  /\ matched Api.R7 future_zoned_tx w2024 = false
  /\ fst (Api.check_fraud future_zoned_tx w2024)
     = Raise (TypeError "can't subtract offset-naive and offset-aware datetimes").
Proof. repeat split; vm_compute; reflexivity. Qed.

(** * Further properties of the two programs *)

(** ** The evaluator on arbitrary rule lists *)

Section Evaluator.
Context {T : Type}.
Implicit Types (r : FraudRule T) (rules : list (FraudRule T)) (t : T).

(** The loop on a concatenation hands its accumulator over. *)
Lemma apply_rules_concat rules1 rules2 t : forall acc w,
  apply_rules (rules1 ++ rules2) t acc w =
  match apply_rules rules1 t acc w with
  | (Ok ms1, w1) => apply_rules rules2 t ms1 w1
  | (Raise e, w1) => (Raise e, w1)
  end.
Proof.
  induction rules1 as [|r rules1 IH]; intros acc w; [reflexivity|].
  cbn [app]. rewrite !apply_rules_cons.
  destruct (condition r t w) as [[b|e] w']; [apply IH|reflexivity].
Qed.

(** X1.  Evaluating two rule lists one after the other is evaluating their
    concatenation: the matches of the first list come first, the second
    list runs in the world the first one leaves, and an exception of the
    first list keeps the second from running. *)
Theorem apply_rules_app rules1 rules2 t w :
  apply_rules (rules1 ++ rules2) t [] w =
  match apply_rules rules1 t [] w with
  | (Ok ms1, w1) =>
      match apply_rules rules2 t [] w1 with
      | (Ok ms2, w2) => (Ok (ms1 ++ ms2)%list, w2)
      | (Raise e, w2) => (Raise e, w2)
      end
  | (Raise e, w1) => (Raise e, w1)
  end.
Proof.
  rewrite apply_rules_concat.
  destruct (apply_rules rules1 t [] w) as [[ms1|e] w1]; [|reflexivity].
  apply apply_rules_acc.
Qed.

Lemma contribution_sublist r b : sublist (contribution r b) [entry_of r].
Proof.
  unfold contribution. destruct (_ && _); [reflexivity|]. apply sublist_nil_l.
Qed.

Lemma contribution_action r b :
  Forall (fun e => e_action e <> "") (contribution r b).
Proof.
  unfold contribution. destruct b; cbn [andb]; [|constructor].
  destruct (String.eqb_spec (action r) ""); cbn [negb]; repeat constructor.
  assumption.
Qed.

Lemma apply_rules_result rules t : forall w ms w',
  apply_rules rules t [] w = (Ok ms, w') ->
  sublist ms (map entry_of rules) /\ Forall (fun e => e_action e <> "") ms.
Proof.
  induction rules as [|r rules IH]; intros w ms w'.
  - rewrite apply_rules_nil. intros [= <- <-]. split; constructor.
  - rewrite apply_rules_cons.
    destruct (condition r t w) as [[b|e] w1]; [|discriminate].
    cbn [app]. rewrite apply_rules_acc.
    destruct (apply_rules rules t [] w1) as [[l|e] w2] eqn:Hrun; [|discriminate].
    intros [= <- <-]. destruct (IH _ _ _ Hrun) as [Hs Hf]. split.
    + cbn [map]. apply (sublist_app _ [entry_of r] _ _); [|assumption].
      apply contribution_sublist.
    + apply Forall_app. split; [apply contribution_action|assumption].
Qed.

Lemma apply_rules_fst rules t w ms :
  fst (apply_rules rules t [] w) = Ok ms ->
  sublist ms (map entry_of rules) /\ Forall (fun e => e_action e <> "") ms.
Proof.
  destruct (apply_rules rules t [] w) as [r w'] eqn:H. cbn. intros ->.
  now apply apply_rules_result in H.
Qed.

(** X2.  Whatever the rules, a result is a subsequence of the entries of the
    rule list, in the order of the list; it is never longer than the rule
    list; and it holds no entry with an empty action, the test
    [if action:] dropping the match of a rule whose action is the empty
    string. *)
Theorem apply_rules_sublist rules t w ms
    (Hrun : fst (apply_rules rules t [] w) = Ok ms) :
  sublist ms (map entry_of rules)
  /\ (length ms <= length rules)%nat
  /\ Forall (fun e => e_action e <> "") ms.
Proof.
  destruct (apply_rules_fst _ _ _ _ Hrun) as [Hs Hf].
  split; [assumption|]. split; [|assumption].
  apply sublist_length in Hs. now rewrite length_map in Hs.
Qed.

(** X3.  The first rule whose condition raises ends the evaluation with its
    exception: the rules after it are not evaluated (the world is the one
    the raising condition left) and the matches found before are lost. *)
Theorem apply_rules_raise rules1 r rules2 t w ms1 w1 e w2
    (Hbefore : apply_rules rules1 t [] w = (Ok ms1, w1))
    (Hraise : condition r t w1 = (Raise e, w2)) :
  apply_rules (rules1 ++ r :: rules2) t [] w = (Raise e, w2).
Proof.
  rewrite apply_rules_concat, Hbefore, apply_rules_cons, Hraise. reflexivity.
Qed.

End Evaluator.

Lemma apply_rules_sublist_witness :
  fst (apply_rules [silent_rule; Api.R2; Api.R8] zoned_tx [] w2024)
    = Ok [mkentry "reject" "Web channel transaction"]
  /\ sublist [mkentry "reject" "Web channel transaction"]
             (map entry_of [silent_rule; Api.R2; Api.R8]).
Proof.
  split; [reflexivity|].
  exact (proj1 (apply_rules_sublist [silent_rule; Api.R2; Api.R8] zoned_tx w2024
                  _ eq_refl)).
Defined.

Lemma apply_rules_raise_witness :
  apply_rules [Api.R1; Api.R2] zoned_tx [] w2024
    = (Ok [mkentry "reject" "Web channel transaction"], w2024)
  /\ apply_rules ([Api.R1; Api.R2] ++ Api.R7 :: [Api.R8; Api.R9]) zoned_tx [] w2024
    = (Raise (TypeError "can't subtract offset-naive and offset-aware datetimes"),
       tick w2024).
Proof.
  split; [reflexivity|].
  exact (apply_rules_raise [Api.R1; Api.R2] Api.R7 [Api.R8; Api.R9] zoned_tx
           w2024 _ w2024 _ (tick w2024) eq_refl eq_refl).
Defined.

(** ** The nine rules *)

Lemma api_entries_NoDup : NoDup (map entry_of Api.create_rules).
Proof.
  unfold Api.create_rules. cbn [map].
  repeat (apply NoDup_cons; split;
          [rewrite ?elem_of_cons, elem_of_nil; intros H;
           repeat (destruct H as [H|H]; [discriminate H|]); exact H|]).
  apply NoDup_nil_2.
Qed.

Lemma app_entries_NoDup : NoDup (map entry_of App.create_fraud_rules).
Proof.
  unfold App.create_fraud_rules. cbn [map].
  repeat (apply NoDup_cons; split;
          [rewrite ?elem_of_cons, elem_of_nil; intros H;
           repeat (destruct H as [H|H]; [discriminate H|]); exact H|]).
  apply NoDup_nil_2.
Qed.

(** X4.  A result of either program lists no entry twice and has at most nine
    entries. *)
Theorem result_no_duplicates
    (t : Api.Transaction) (u : App.Transaction) (w : world) (ms us : list entry)
    (Hms : fst (Api.check_fraud t w) = Ok ms)
    (Hus : fst (apply_rules App.create_fraud_rules u [] w) = Ok us) :
  NoDup ms /\ (length ms <= 9)%nat /\ NoDup us /\ (length us <= 9)%nat.
Proof.
  destruct (apply_rules_fst _ _ _ _ Hms) as (Hs & _).
  destruct (apply_rules_fst _ _ _ _ Hus) as (Hs' & _).
  pose proof (sublist_length _ _ Hs) as Hl.
  pose proof (sublist_length _ _ Hs') as Hl'.
  rewrite length_map in Hl, Hl'.
  split; [|split; [exact Hl|split; [|exact Hl']]].
  - eapply sublist_NoDup; [apply api_entries_NoDup|exact Hs].
  - eapply sublist_NoDup; [apply app_entries_NoDup|exact Hs'].
Qed.

Lemma result_no_duplicates_witness :
  fst (Api.check_fraud sunday_tx w2024)
    = Ok [mkentry "reject" "Transaction during restricted period"]
  /\ NoDup [mkentry "reject" "Transaction during restricted period"].
Proof.
  split; [reflexivity|].
  exact (proj1 (result_no_duplicates sunday_tx sunday_row w2024 _ _ eq_refl eq_refl)).
Defined.

Lemma whole_days_threshold x :
  (x / 86400000000 <=? 30) = true <-> x < thirty_one_days.
Proof.
  unfold thirty_one_days.
  destruct (Z.leb_spec (x / 86400000000) 30) as [Hle|Hgt];
    (split; [intros H; try discriminate H|intros H; try reflexivity]); zdiv.
Qed.

Lemma api_R7_threshold (t : Api.Transaction) (w : world) :
  Py.tzinfo (Api.account_creation_date t) = None ->
  (matched Api.R7 t w = true
     <-> instant (current_time w) - instant (Api.account_creation_date t)
         < thirty_one_days).
Proof.
  intros Hn. unfold matched. rewrite ApiFacts.api_R7_naive by assumption.
  cbn [fst]. rewrite <- whole_days_threshold. now destruct (_ <=? 30).
Qed.

Lemma app_R7_threshold (u : App.Transaction) (w : world) :
  Py.tzinfo (App.account_creation_date u) = None ->
  (matched App.R7 u w = true
     <-> instant (current_time w) - instant (App.account_creation_date u)
         < thirty_one_days).
Proof.
  intros Hn. unfold matched. rewrite AppFacts.app_R7_naive by assumption.
  cbn [fst]. rewrite <- whole_days_threshold. now destruct (_ <=? 30).
Qed.

(** X5.  R7 looks at whole elapsed days: with a creation date without a zone
    it matches exactly when less than 31 times 24 hours have passed
    between the creation date and the current time, so that an account
    30 days and 23 hours old still counts as recent. *)
Theorem R7_thirty_one_days
    (t : Api.Transaction) (u : App.Transaction) (w : world)
    (Ht : Py.tzinfo (Api.account_creation_date t) = None)
    (Hu : Py.tzinfo (App.account_creation_date u) = None) :
  (matched Api.R7 t w = true
     <-> instant (current_time w) - instant (Api.account_creation_date t)
         < thirty_one_days)
  /\ (matched App.R7 u w = true
     <-> instant (current_time w) - instant (App.account_creation_date u)
         < thirty_one_days).
Proof. split; [now apply api_R7_threshold|now apply app_R7_threshold]. Qed.

Lemma R7_thirty_one_days_witness :
  Py.tzinfo (Api.account_creation_date almost_31_tx) = None
  /\ instant (current_time w2024) - instant (Api.account_creation_date almost_31_tx)
     = 30 * 86400000000 + 23 * 3600000000
  /\ matched Api.R7 almost_31_tx w2024 = true.
Proof.
  split; [reflexivity|]. split; [reflexivity|].
  exact (proj2 (proj1 (R7_thirty_one_days almost_31_tx almost_31_row w2024
                         eq_refl eq_refl)) eq_refl).
Defined.

Lemma filter_selected {T} (p : entry -> bool) (rules : list (FraudRule T)) t w :
  List.filter p (selected rules t w)
  = map entry_of (List.filter (fun r => matched r t w && p (entry_of r)) rules).
Proof.
  induction rules as [|r rules IH]; [reflexivity|].
  rewrite selected_cons. cbn [List.filter].
  destruct (matched r t w); cbn [app andb List.filter].
  - destruct (p (entry_of r)); cbn [map]; now rewrite IH.
  - exact IH.
Qed.

Lemma api_matched_pure r t w1 w2 :
  In r Api.create_rules -> r <> Api.R7 -> matched r t w1 = matched r t w2.
Proof.
  unfold Api.create_rules. cbn [In]. intros Hr Hne.
  repeat (destruct Hr as [<-|Hr]); try contradiction; reflexivity.
Qed.

(** X6.  Time only takes R7 away.  Between two evaluations of a Transaction,
    the second at a later current time, every entry other than R7's is in
    both results or in neither, in the same order, and R7's entry is in
    the later result only if it is in the earlier one. *)
Theorem later_evaluation
    (t : Api.Transaction) (w1 w2 : world) (ms1 ms2 : list entry)
    (Hms1 : fst (Api.check_fraud t w1) = Ok ms1)
    (Hms2 : fst (Api.check_fraud t w2) = Ok ms2)
    (Hlater : instant (current_time w1) <= instant (current_time w2)) :
  List.filter not_R7 ms1 = List.filter not_R7 ms2
  /\ (In (mkentry "review" "Account created recently") ms2 ->
      In (mkentry "review" "Account created recently") ms1).
Proof.
  assert (Hn : Py.tzinfo (Api.account_creation_date t) = None).
  { destruct (Py.tzinfo (Api.account_creation_date t)) eqn:Hz; [|reflexivity].
    rewrite ApiFacts.check_fraud_aware in Hms1 by congruence. discriminate Hms1. }
  apply check_fraud_ok in Hms1, Hms2. subst ms1 ms2. split.
  - rewrite !filter_selected. f_equal. apply List.filter_ext_in.
    intros r Hr.
    destruct (String.eqb_spec (e_reason (entry_of r)) "Account created recently")
      as [He|He]; unfold not_R7.
    + apply String.eqb_eq in He. rewrite He. cbn [negb]. now rewrite !andb_false_r.
    + f_equal. apply api_matched_pure; [assumption|]. intros ->. now apply He.
  - assert (H7 : In Api.R7 Api.create_rules)
      by (unfold Api.create_rules; cbn [In]; tauto).
    change (mkentry "review" "Account created recently") with (entry_of Api.R7).
    rewrite !selected_In. intros (r & Hr & Hm & He).
    apply (ApiFacts.api_entry_of_inj r Api.R7 Hr H7) in He. subst r.
    exists Api.R7. split; [assumption|]. split; [|reflexivity].
    apply (api_R7_threshold t w1 Hn).
    apply (api_R7_threshold t w2 Hn) in Hm. lia.
Qed.

Lemma later_evaluation_witness :
  fst (Api.check_fraud almost_31_tx w2024)
    = Ok [mkentry "review" "Account created recently"]
  /\ fst (Api.check_fraud almost_31_tx w2024_next) = Ok []
  /\ instant (current_time w2024) <= instant (current_time w2024_next)
  /\ List.filter not_R7 [mkentry "review" "Account created recently"]
     = List.filter not_R7 [].
Proof.
  split; [reflexivity|]. split; [reflexivity|]. split; [discriminate|].
  exact (proj1 (later_evaluation almost_31_tx w2024 w2024_next _ _
                  eq_refl eq_refl ltac:(discriminate))).
Defined.

(** X7.  A creation date with a zone, whichever it is, makes every evaluation
    fail in the scoring API: [check_fraud] and the endpoint raise the
    [TypeError] of R7 whatever the other fields are, and R8 and R9 are
    not evaluated. *)
Theorem zoned_creation_date_raises (t : Api.Transaction) (w : world)
    (Hz : Py.tzinfo (Api.account_creation_date t) <> None) :
  Api.check_fraud t w
    = (Raise (TypeError "can't subtract offset-naive and offset-aware datetimes"),
       tick w)
  /\ Api.check_transaction t w
    = (Raise (TypeError "can't subtract offset-naive and offset-aware datetimes"),
       tick w).
Proof.
  pose proof (ApiFacts.check_fraud_aware t w Hz) as H. split; [exact H|].
  unfold Api.check_transaction, mbind, M_bind. now rewrite H.
Qed.

Lemma zoned_creation_date_raises_witness :
  Py.tzinfo (Api.account_creation_date zoned_tx) <> None
  /\ Api.check_transaction zoned_tx w2024
    = (Raise (TypeError "can't subtract offset-naive and offset-aware datetimes"),
       tick w2024).
Proof.
  split; [discriminate|].
  exact (proj2 (zoned_creation_date_raises zoned_tx w2024 ltac:(discriminate))).
Defined.

(** ** The batch evaluation of the dashboard *)

Lemma evaluate_loop_acc rules txs : forall results w,
  App.evaluate_loop txs rules results w =
  match App.evaluate_loop txs rules [] w with
  | (Ok rows, w') => (Ok (results ++ rows)%list, w')
  | (Raise e, w') => (Raise e, w')
  end.
Proof.
  induction txs as [|tx txs IH]; intros results w.
  - cbn. now rewrite app_nil_r.
  - rewrite !AppFacts.evaluate_loop_cons.
    destruct (apply_rules rules tx [] w) as [[ms|e] w']; [|reflexivity].
    rewrite IH. rewrite (IH ([] ++ _)%list).
    destruct (App.evaluate_loop txs rules [] w') as [[rows|e] w'']; [|reflexivity].
    cbn [app]. now rewrite <- app_assoc.
Qed.

Lemma evaluate_loop_concat rules txs1 txs2 : forall results w,
  App.evaluate_loop (txs1 ++ txs2) rules results w =
  match App.evaluate_loop txs1 rules results w with
  | (Ok rows, w') => App.evaluate_loop txs2 rules rows w'
  | (Raise e, w') => (Raise e, w')
  end.
Proof.
  induction txs1 as [|tx txs1 IH]; intros results w; [reflexivity|].
  cbn [app]. rewrite !AppFacts.evaluate_loop_cons.
  destruct (apply_rules rules tx [] w) as [[ms|e] w']; [apply IH|reflexivity].
Qed.

(** X8.  Evaluating a batch in two parts, the second part starting in the
    world the first part leaves, gives the rows of the whole batch: the
    rows of the first part followed by those of the second.  If the first
    part raises, so does the whole batch. *)
Theorem evaluate_transactions_app
    (txs1 txs2 : list App.Transaction) (rules : list (FraudRule App.Transaction))
    (w : world) :
  App.evaluate_transactions (txs1 ++ txs2) rules w =
  match App.evaluate_transactions txs1 rules w with
  | (Ok rows1, w1) =>
      match App.evaluate_transactions txs2 rules w1 with
      | (Ok rows2, w2) => (Ok (rows1 ++ rows2)%list, w2)
      | (Raise e, w2) => (Raise e, w2)
      end
  | (Raise e, w1) => (Raise e, w1)
  end.
Proof.
  unfold App.evaluate_transactions. rewrite evaluate_loop_concat.
  destruct (App.evaluate_loop txs1 rules [] w) as [[rows1|e] w1]; [|reflexivity].
  apply evaluate_loop_acc.
Qed.

Lemma advance_tick w k : advance (tick w) k = advance w (S k).
Proof. unfold advance, tick. cbn. f_equal. lia. Qed.

Lemma advance_0 w : advance w 0 = w.
Proof. now destruct w. Qed.

Lemma evaluate_loop_rows_at txs : forall results w,
  Forall (fun u => Py.tzinfo (App.account_creation_date u) = None) txs ->
  App.evaluate_loop txs App.create_fraud_rules results w
  = (Ok (results ++ imap (fun k tx => row_at tx (advance w k)) txs)%list,
     advance w (length txs)).
Proof.
  induction txs as [|tx txs IH]; intros results w Hn.
  - cbn. now rewrite app_nil_r, advance_0.
  - apply Forall_cons in Hn as [Htx Hn].
    rewrite AppFacts.evaluate_loop_cons, AppFacts.rules_naive by assumption.
    rewrite IH by assumption. cbn [imap length].
    rewrite advance_tick, advance_0, <- app_assoc. cbn [app].
    f_equal. f_equal. f_equal. f_equal.
    apply imap_ext. intros k u _. cbn. now rewrite advance_tick.
Qed.

(** X9.  A batch whose creation dates carry no zone is evaluated transaction
    by transaction, in order, one row per transaction: the row of the
    transaction at position [k] holds its id, weekday label and location
    and the matches found with the [k]-th next reading of the clock, the
    clock being read once per transaction. *)
Theorem evaluate_transactions_rows (txs : list App.Transaction) (w : world)
    (Hn : Forall (fun u => Py.tzinfo (App.account_creation_date u) = None) txs) :
  App.evaluate_transactions txs App.create_fraud_rules w
  = (Ok (imap (fun k tx => row_at tx (advance w k)) txs), advance w (length txs)).
Proof. unfold App.evaluate_transactions. now rewrite evaluate_loop_rows_at. Qed.

Lemma evaluate_transactions_rows_witness :
  Forall (fun u => Py.tzinfo (App.account_creation_date u) = None)
         [wednesday_row; sunday_row]
  /\ App.evaluate_transactions [wednesday_row; sunday_row] App.create_fraud_rules w2024
     = (Ok [row_at wednesday_row w2024; row_at sunday_row (tick w2024)],
        advance w2024 2).
Proof.
  split; [repeat constructor|].
  exact (evaluate_transactions_rows [wednesday_row; sunday_row] w2024
           ltac:(repeat constructor)).
Defined.

Lemma evaluate_loop_zoned txs : forall results w,
  Exists (fun u => Py.tzinfo (App.account_creation_date u) <> None) txs ->
  fst (App.evaluate_loop txs App.create_fraud_rules results w)
  = Raise (TypeError "can't subtract offset-naive and offset-aware datetimes").
Proof.
  induction txs as [|tx txs IH]; intros results w Hz.
  - now apply Exists_nil in Hz.
  - rewrite AppFacts.evaluate_loop_cons.
    destruct (Py.tzinfo (App.account_creation_date tx)) eqn:Htx.
    + rewrite AppFacts.rules_aware by congruence. reflexivity.
    + rewrite AppFacts.rules_naive by assumption. apply IH.
      apply Exists_cons in Hz as [Hz|Hz]; [congruence|assumption].
Qed.

(** X10.  One creation date with a zone anywhere in the batch fails the whole
    batch: [evaluate_transactions] raises the [TypeError] of R7 and
    returns no row, not even for the transactions before the zoned one. *)
Theorem evaluate_transactions_zoned (txs : list App.Transaction) (w : world)
    (Hz : Exists (fun u => Py.tzinfo (App.account_creation_date u) <> None) txs) :
  fst (App.evaluate_transactions txs App.create_fraud_rules w)
  = Raise (TypeError "can't subtract offset-naive and offset-aware datetimes").
Proof.
  unfold App.evaluate_transactions. apply evaluate_loop_zoned. exact Hz.
Qed.

Lemma evaluate_transactions_zoned_witness :
  fst (App.evaluate_transactions [wednesday_row; zoned_row; sunday_row]
         App.create_fraud_rules w2024)
  = Raise (TypeError "can't subtract offset-naive and offset-aware datetimes").
Proof.
  apply (evaluate_transactions_zoned [wednesday_row; zoned_row; sunday_row] w2024).
  apply Exists_cons_tl, Exists_cons_hd. discriminate.
Defined.

(** ** The summary of the dashboard *)

Lemma app_rule_actions r :
  In r App.create_fraud_rules -> action r = "review" \/ action r = "reject".
Proof.
  unfold App.create_fraud_rules. cbn [In]. intros Hr.
  repeat (destruct Hr as [<-|Hr]); try contradiction; cbn; tauto.
Qed.

Lemma row_of_well_formed tx r :
  row_of App.create_fraud_rules tx r -> well_formed_row r.
Proof.
  intros (_ & (w0 & Hrun) & Hclear & Hflagged). split; [|split].
  - destruct (App.r_details r) eqn:Hd.
    + left. split; [now apply Hclear|reflexivity].
    + right. split; [now apply Hflagged|discriminate].
  - apply rules_ok in Hrun. rewrite Hrun. apply Forall_forall.
    intros e He. apply list_elem_of_In, selected_In in He.
    destruct He as (r0 & Hr0 & _ & <-). now apply app_rule_actions.
  - apply apply_rules_fst in Hrun as [Hs _].
    apply sublist_length in Hs. now rewrite length_map in Hs.
Qed.

Lemma rows_well_formed txs w rows :
  fst (App.evaluate_transactions txs App.create_fraud_rules w) = Ok rows ->
  Forall well_formed_row rows.
Proof.
  intros H. apply evaluate_loop_rows in H as (new & -> & Hnew). cbn [app].
  induction Hnew as [|tx r txs' rows' Hr _ IH]; constructor; [|assumption].
  now apply (row_of_well_formed tx).
Qed.

Lemma rows_status (rules : list (FraudRule App.Transaction)) txs w rows :
  fst (App.evaluate_transactions txs rules w) = Ok rows ->
  Forall (fun r => App.r_status r = "clear" \/ App.r_status r = "flagged") rows.
Proof.
  intros H. apply evaluate_loop_rows in H as (new & -> & Hnew). cbn [app].
  induction Hnew as [|tx r txs' rows' Hr _ IH]; constructor; [|assumption].
  destruct Hr as (_ & _ & Hclear & Hflagged).
  destruct (App.r_details r); [left; now apply Hclear|right; now apply Hflagged].
Qed.

Lemma summarize_inr rows s :
  Dashboard.summarize rows = inr s ->
  rows <> []
  /\ Dashboard.total_transactions s = length rows
  /\ Dashboard.total_flagged s
     = length (List.filter (Dashboard.is_status "flagged") rows)
  /\ Dashboard.total_cleared s
     = length (List.filter (Dashboard.is_status "clear") rows)
  /\ Dashboard.total_review s
     = length (List.filter (Dashboard.has_action "review") (Dashboard.all_details rows))
  /\ Dashboard.total_reject s
     = length (List.filter (Dashboard.has_action "reject") (Dashboard.all_details rows))
  /\ Dashboard.reasons s = map e_reason (Dashboard.all_details rows)
  /\ Dashboard.reasons_rejected s
     = map e_reason (List.filter (Dashboard.has_action "reject")
          (Dashboard.all_details (List.filter (Dashboard.is_status "flagged") rows)))
  /\ Dashboard.rejected_locations s
     = map App.r_location
         (List.filter (fun r => existsb (Dashboard.has_action "reject") (App.r_details r))
            (List.filter (Dashboard.is_status "flagged") rows))
  /\ Dashboard.evaluation_table s
     = map (fun r => (App.r_id r, App.r_status r,
                      Dashboard.show_details (App.r_details r))) rows.
Proof.
  destruct rows as [|r rows]; [discriminate|]. intros [= <-].
  repeat split. discriminate.
Qed.

Lemma filter_length_cons {A} (p : A -> bool) x l :
  length (List.filter p (x :: l))
  = ((if p x then 1 else 0) + length (List.filter p l))%nat.
Proof. cbn [List.filter]. now destruct (p x). Qed.

(** X11.  Every evaluated transaction is counted once, as flagged or as
    cleared: the two scorecards add up to the total, whatever the rules. *)
Theorem scorecards_partition
    (txs : list App.Transaction) (rules : list (FraudRule App.Transaction))
    (w : world) (rows : list App.row) (s : Dashboard.summary)
    (Hrows : fst (App.evaluate_transactions txs rules w) = Ok rows)
    (Hs : Dashboard.summarize rows = inr s) :
  Dashboard.total_transactions s = length txs
  /\ (Dashboard.total_flagged s + Dashboard.total_cleared s
      = Dashboard.total_transactions s)%nat.
Proof.
  apply summarize_inr in Hs as (_ & -> & -> & -> & _). split.
  - apply evaluate_loop_rows in Hrows as (new & -> & Hnew). cbn [app].
    symmetry. exact (Forall2_length _ _ _ Hnew).
  - apply rows_status in Hrows.
    induction Hrows as [|r rows Hr _ IH]; [reflexivity|].
    rewrite !filter_length_cons. cbn [length].
    assert (((if Dashboard.is_status "flagged" r then 1 else 0)
             + (if Dashboard.is_status "clear" r then 1 else 0) = 1)%nat) as E
      by (unfold Dashboard.is_status; destruct Hr as [-> | ->]; reflexivity).
    lia.
Qed.

Lemma scorecards_partition_witness :
  fst (App.evaluate_transactions sample_batch App.create_fraud_rules w2024)
    = Ok sample_rows
  /\ Dashboard.summarize sample_rows = inr sample_summary
  /\ Dashboard.total_transactions sample_summary = length sample_batch
  /\ (Dashboard.total_flagged sample_summary + Dashboard.total_cleared sample_summary
      = Dashboard.total_transactions sample_summary)%nat.
Proof.
  split; [reflexivity|]. split; [reflexivity|].
  exact (scorecards_partition sample_batch App.create_fraud_rules w2024
           sample_rows sample_summary eq_refl eq_refl).
Defined.

Lemma all_details_cons r rows :
  Dashboard.all_details (r :: rows)
  = (App.r_details r ++ Dashboard.all_details rows)%list.
Proof. reflexivity. Qed.

Lemma actions_partition (items : list entry) :
  Forall (fun e => e_action e = "review" \/ e_action e = "reject") items ->
  (length (List.filter (Dashboard.has_action "review") items)
   + length (List.filter (Dashboard.has_action "reject") items)
   = length items)%nat.
Proof.
  induction 1 as [|e items He _ IH]; [reflexivity|].
  rewrite !filter_length_cons. cbn [length].
  assert (((if Dashboard.has_action "review" e then 1 else 0)
           + (if Dashboard.has_action "reject" e then 1 else 0) = 1)%nat) as E
    by (unfold Dashboard.has_action; destruct He as [-> | ->]; reflexivity).
  lia.
Qed.

Lemma all_details_actions rows :
  Forall well_formed_row rows ->
  Forall (fun e => e_action e = "review" \/ e_action e = "reject")
         (Dashboard.all_details rows).
Proof.
  induction 1 as [|r rows (_ & Hr & _) _ IH]; [constructor|].
  rewrite all_details_cons. apply Forall_app. now split.
Qed.

(** Rows that are not flagged have no details. *)
Lemma all_details_flagged rows :
  Forall well_formed_row rows ->
  Dashboard.all_details (List.filter (Dashboard.is_status "flagged") rows)
  = Dashboard.all_details rows.
Proof.
  induction 1 as [|r rows ([[Hs Hd]|[Hs Hd]] & _) _ IH]; [reflexivity| |];
    cbn [List.filter]; unfold Dashboard.is_status at 1; rewrite Hs; cbn -[Dashboard.all_details];
    rewrite !all_details_cons, ?Hd, IH; reflexivity.
Qed.

(** X12.  The scorecards of reviews and of rejections count the matches of the
    whole batch between them: they add up to the number of reasons drawn
    in the first chart, and the reasons of the second chart are as many
    as the rejections. *)
Theorem scorecards_actions
    (txs : list App.Transaction) (w : world) (rows : list App.row)
    (s : Dashboard.summary)
    (Hrows : fst (App.evaluate_transactions txs App.create_fraud_rules w) = Ok rows)
    (Hs : Dashboard.summarize rows = inr s) :
  (Dashboard.total_review s + Dashboard.total_reject s
   = length (Dashboard.reasons s))%nat
  /\ length (Dashboard.reasons_rejected s) = Dashboard.total_reject s.
Proof.
  apply rows_well_formed in Hrows.
  apply summarize_inr in Hs as (_ & _ & _ & _ & -> & -> & -> & -> & _).
  rewrite !length_map, all_details_flagged by assumption.
  split; [|reflexivity].
  now apply actions_partition, all_details_actions.
Qed.

Lemma scorecards_actions_witness :
  fst (App.evaluate_transactions sample_batch App.create_fraud_rules w2024)
    = Ok sample_rows
  /\ Dashboard.summarize sample_rows = inr sample_summary
  /\ (Dashboard.total_review sample_summary + Dashboard.total_reject sample_summary
      = length (Dashboard.reasons sample_summary))%nat
  /\ length (Dashboard.reasons_rejected sample_summary)
     = Dashboard.total_reject sample_summary.
Proof.
  split; [reflexivity|]. split; [reflexivity|].
  exact (scorecards_actions sample_batch w2024 sample_rows sample_summary
           eq_refl eq_refl).
Defined.

Lemma flagged_details_bounds rows :
  Forall well_formed_row rows ->
  (length (List.filter (Dashboard.is_status "flagged") rows)
     <= length (Dashboard.all_details rows)
   /\ length (Dashboard.all_details rows)
     <= 9 * length (List.filter (Dashboard.is_status "flagged") rows))%nat.
Proof.
  induction 1 as [|r rows ([[Hs Hd]|[Hs Hd]] & _ & Hl) _ IH]; [cbn; lia| |];
    rewrite filter_length_cons, all_details_cons, length_app;
    unfold Dashboard.is_status at 1 3; rewrite Hs; cbn [String.eqb Ascii.eqb Bool.eqb].
  - rewrite Hd. cbn [length]. lia.
  - destruct (App.r_details r); [contradiction|]. cbn [length] in *. lia.
Qed.

(** X13.  Every flagged transaction brings between one and nine reasons to the
    first chart, and a cleared one none: with no flagged transaction the
    chart is empty. *)
Theorem reasons_bounds
    (txs : list App.Transaction) (w : world) (rows : list App.row)
    (s : Dashboard.summary)
    (Hrows : fst (App.evaluate_transactions txs App.create_fraud_rules w) = Ok rows)
    (Hs : Dashboard.summarize rows = inr s) :
  (Dashboard.total_flagged s <= length (Dashboard.reasons s)
   /\ length (Dashboard.reasons s) <= 9 * Dashboard.total_flagged s)%nat
  /\ (Dashboard.total_flagged s = 0%nat <-> Dashboard.reasons s = []).
Proof.
  apply rows_well_formed in Hrows.
  apply summarize_inr in Hs as (_ & _ & -> & _ & _ & _ & -> & _).
  pose proof (flagged_details_bounds rows Hrows) as [H1 H2].
  rewrite length_map. split; [split; assumption|].
  split.
  - intros H0. rewrite H0 in H2.
    destruct (Dashboard.all_details rows); [reflexivity|cbn in H2; lia].
  - intros H0. apply (f_equal length) in H0. rewrite length_map in H0.
    cbn in H0. lia.
Qed.

Lemma reasons_bounds_witness :
  fst (App.evaluate_transactions sample_batch App.create_fraud_rules w2024)
    = Ok sample_rows
  /\ Dashboard.summarize sample_rows = inr sample_summary
  /\ (Dashboard.total_flagged sample_summary
      <= length (Dashboard.reasons sample_summary)
      /\ length (Dashboard.reasons sample_summary)
      <= 9 * Dashboard.total_flagged sample_summary)%nat.
Proof.
  split; [reflexivity|]. split; [reflexivity|].
  exact (proj1 (reasons_bounds sample_batch w2024 sample_rows sample_summary
                  eq_refl eq_refl)).
Defined.

Lemma show_details_None (items : list entry) :
  Forall (fun e => e_action e = "review" \/ e_action e = "reject") items ->
  (Dashboard.show_details items = "None" <-> items = []).
Proof.
  intros Hf. split; [|now intros ->].
  destruct Hf as [|e items He _]; [reflexivity|].
  unfold Dashboard.show_details. cbn [map Dashboard.join].
  destruct He as [-> | ->]; destruct (map _ items); discriminate.
Qed.

(** X14.  The evaluation table has one line per transaction, in order, and its
    last cell reads 'None' exactly on the lines of the cleared
    transactions. *)
Theorem evaluation_table_cells
    (txs : list App.Transaction) (w : world) (rows : list App.row)
    (s : Dashboard.summary)
    (Hrows : fst (App.evaluate_transactions txs App.create_fraud_rules w) = Ok rows)
    (Hs : Dashboard.summarize rows = inr s) :
  map (fun line => fst (fst line)) (Dashboard.evaluation_table s) = map App.id txs
  /\ Forall (fun line => snd line = "None" <-> snd (fst line) = "clear")
            (Dashboard.evaluation_table s).
Proof.
  apply summarize_inr in Hs as (_ & _ & _ & _ & _ & _ & _ & _ & _ & ->).
  split.
  - apply evaluate_loop_rows in Hrows as (new & -> & Hnew). cbn [app].
    induction Hnew as [|tx r txs' rows' (Hid & _) _ IH]; [reflexivity|].
    cbn [map fst]. now rewrite Hid, IH.
  - apply rows_well_formed in Hrows. apply Forall_map.
    eapply Forall_impl; [exact Hrows|].
    intros r (Hst & Ha & _). cbn [fst snd].
    rewrite (show_details_None _ Ha).
    destruct Hst as [[-> ->]|[-> Hd]]; [tauto|].
    split; [contradiction|discriminate].
Qed.

Lemma evaluation_table_cells_witness :
  fst (App.evaluate_transactions sample_batch App.create_fraud_rules w2024)
    = Ok sample_rows
  /\ Dashboard.summarize sample_rows = inr sample_summary
  /\ map (fun line => fst (fst line)) (Dashboard.evaluation_table sample_summary)
     = map App.id sample_batch.
Proof.
  split; [reflexivity|]. split; [reflexivity|].
  exact (proj1 (evaluation_table_cells sample_batch w2024 sample_rows sample_summary
                  eq_refl eq_refl)).
Defined.

Lemma filter_rejected_flagged rows :
  Forall well_formed_row rows ->
  List.filter (fun r => existsb (Dashboard.has_action "reject") (App.r_details r))
              (List.filter (Dashboard.is_status "flagged") rows)
  = List.filter (fun r => existsb (Dashboard.has_action "reject") (App.r_details r))
                rows.
Proof.
  induction 1 as [|r rows ([[Hs Hd]|[Hs Hd]] & _) _ IH]; [reflexivity| |];
    cbn [List.filter]; unfold Dashboard.is_status at 1; rewrite Hs;
    cbn [String.eqb Ascii.eqb Bool.eqb List.filter].
  - rewrite Hd. cbn [existsb]. exact IH.
  - now rewrite IH.
Qed.

Lemma rejected_rows_bound rows :
  (length (List.filter (fun r => existsb (Dashboard.has_action "reject")
                                         (App.r_details r)) rows)
   <= length (List.filter (Dashboard.has_action "reject")
                          (Dashboard.all_details rows)))%nat.
Proof.
  induction rows as [|r rows IH]; [reflexivity|].
  rewrite filter_length_cons, all_details_cons, List.filter_app, length_app.
  destruct (existsb _ (App.r_details r)) eqn:He; [|lia].
  apply existsb_exists in He as (e & He & Hr).
  assert (In e (List.filter (Dashboard.has_action "reject") (App.r_details r)))
    as Hin by (apply filter_In; now split).
  destruct (List.filter _ (App.r_details r)); [contradiction|]. cbn [length]. lia.
Qed.

(** X15.  The second pie chart counts the transactions with a rejection.  Such
    a transaction is always flagged, so restricting the table to flagged
    rows first removes none of them; and there are at most as many of
    them as rejections, and as flagged transactions. *)
Theorem rejected_locations_rows
    (txs : list App.Transaction) (w : world) (rows : list App.row)
    (s : Dashboard.summary)
    (Hrows : fst (App.evaluate_transactions txs App.create_fraud_rules w) = Ok rows)
    (Hs : Dashboard.summarize rows = inr s) :
  Dashboard.rejected_locations s
  = map App.r_location
      (List.filter (fun r => existsb (Dashboard.has_action "reject") (App.r_details r))
                   rows)
  /\ (length (Dashboard.rejected_locations s) <= Dashboard.total_reject s)%nat
  /\ (length (Dashboard.rejected_locations s) <= Dashboard.total_flagged s)%nat.
Proof.
  apply rows_well_formed in Hrows.
  apply summarize_inr in Hs as (_ & _ & -> & _ & _ & -> & _ & _ & -> & _).
  split; [now rewrite filter_rejected_flagged|].
  rewrite length_map. split.
  - rewrite filter_rejected_flagged by assumption. apply rejected_rows_bound.
  - apply List.filter_length_le.
Qed.

Lemma rejected_locations_rows_witness :
  fst (App.evaluate_transactions sample_batch App.create_fraud_rules w2024)
    = Ok sample_rows
  /\ Dashboard.summarize sample_rows = inr sample_summary
  /\ Dashboard.rejected_locations sample_summary
     = map App.r_location
         (List.filter (fun r => existsb (Dashboard.has_action "reject")
                                        (App.r_details r)) sample_rows).
Proof.
  split; [reflexivity|]. split; [reflexivity|].
  exact (proj1 (rejected_locations_rows sample_batch w2024 sample_rows sample_summary
                  eq_refl eq_refl)).
Defined.

(** ** From the table to the summary *)

Lemma convert_inr data : forall txs,
  Dashboard.convert_to_transactions data = inr txs
  <-> Forall2 (fun row tx => App.validate row = inr tx) data txs.
Proof.
  induction data as [|row data IH]; intros txs; cbn [Dashboard.convert_to_transactions].
  - split; [intros [= <-]; constructor|intros H; now inversion H].
  - destruct (App.validate row) as [e|tx] eqn:Hrow.
    + split; [discriminate|]. intros H. inversion H; subst. congruence.
    + destruct (Dashboard.convert_to_transactions data) as [e|txs'] eqn:Hrest.
      * split; [discriminate|]. intros H. inversion H as [|? tx' ? txs'' Hv Hrest']; subst.
        apply IH in Hrest'. discriminate Hrest'.
      * split.
        -- intros [= <-]. constructor; [assumption|]. now apply IH.
        -- intros H. inversion H as [|? tx' ? txs'' Hv Hrest']; subst.
           apply IH in Hrest'. congruence.
Qed.

Lemma convert_inl data : forall e,
  Dashboard.convert_to_transactions data = inl e
  <-> exists before row after,
        data = (before ++ row :: after)%list
        /\ Forall (fun r => exists tx, App.validate r = inr tx) before
        /\ App.validate row = inl e.
Proof.
  induction data as [|row data IH]; intros e; cbn [Dashboard.convert_to_transactions].
  - split; [discriminate|]. intros (before & r & after & H & _).
    now destruct before.
  - destruct (App.validate row) as [e0|tx] eqn:Hrow.
    + split.
      * intros [= <-]. exists [], row, data. repeat split; [constructor|assumption].
      * intros (before & r & after & H & Hb & Hr).
        destruct before as [|b before]; cbn [app] in H; injection H as H1 H2; subst.
        -- congruence.
        -- apply Forall_cons in Hb as [[tx Hb] _]. congruence.
    + destruct (Dashboard.convert_to_transactions data) as [e0|txs'] eqn:Hrest.
      * split.
        -- intros [= <-].
           destruct (proj1 (IH e0) eq_refl) as (before & r & after & -> & Hb & Hr).
           exists (row :: before), r, after. repeat split; [|assumption].
           constructor; [now exists tx|assumption].
        -- intros (before & r & after & H & Hb & Hr).
           destruct before as [|b before]; cbn [app] in H; injection H as H1 H2; subst.
           ++ congruence.
           ++ apply Forall_cons in Hb as [_ Hb].
              apply (proj2 (IH e)). now exists before, r, after.
      * split; [discriminate|].
        intros (before & r & after & H & Hb & Hr).
        destruct before as [|b before]; cbn [app] in H; injection H as H1 H2; subst.
        -- congruence.
        -- apply Forall_cons in Hb as [_ Hb].
           assert (inr txs' = @inl (list error) (list App.Transaction) e) as H'
             by (apply (proj2 (IH e)); now exists before, r, after).
           discriminate H'.
Qed.

(** X16.  The conversion of a table is all or nothing.  It returns the
    Transactions of all the rows, in the order of the rows, when every row
    validates; otherwise it returns no Transaction and fails with the
    errors of the first row that does not validate, the rows before it
    being valid. *)
Theorem convert_all_or_nothing (data : list (gmap string raw))
    (txs : list App.Transaction) (e : list error) :
  (Dashboard.convert_to_transactions data = inr txs
     <-> Forall2 (fun row tx => App.validate row = inr tx) data txs)
  /\ (Dashboard.convert_to_transactions data = inl e
     <-> exists before row after,
           data = (before ++ row :: after)%list
           /\ Forall (fun r => exists tx, App.validate r = inr tx) before
           /\ App.validate row = inl e).
Proof. split; [apply convert_inr|apply convert_inl]. Qed.

Lemma naive_or_zoned (txs : list App.Transaction) :
  Forall (fun u => Py.tzinfo (App.account_creation_date u) = None) txs
  \/ Exists (fun u => Py.tzinfo (App.account_creation_date u) <> None) txs.
Proof.
  induction txs as [|tx txs [IH|IH]].
  - left. constructor.
  - destruct (Py.tzinfo (App.account_creation_date tx)) eqn:Hz.
    + right. apply Exists_cons_hd. congruence.
    + left. now constructor.
  - right. now apply Exists_cons_tl.
Qed.

Lemma naive_not_zoned (txs : list App.Transaction) :
  Forall (fun u => Py.tzinfo (App.account_creation_date u) = None) txs ->
  Exists (fun u => Py.tzinfo (App.account_creation_date u) <> None) txs ->
  False.
Proof.
  intros Hn Hz. apply Exists_exists in Hz as (u & Hu & Hz).
  rewrite Forall_forall in Hn. now apply Hz, Hn.
Qed.

(** X17.  The four ways the script ends.  It shows a summary exactly when the
    table has at least one row, every row validates and no creation date
    carries a zone; the clock has then been read once per row.  A row
    that does not validate stops it before any evaluation, with the
    errors of the first such row; a zoned creation date stops it with the
    [TypeError] of R7; and an empty table gets through conversion and
    evaluation and fails at the first column access on the empty frame,
    with [KeyError]. *)
Theorem run_outcomes (data : list (gmap string raw)) (w : world) :
  match Dashboard.run data w with
  | (inr s, w') =>
      data <> []
      /\ w' = advance w (length data)
      /\ exists txs,
           Dashboard.convert_to_transactions data = inr txs
           /\ Forall (fun u => Py.tzinfo (App.account_creation_date u) = None) txs
           /\ Dashboard.summarize (imap (fun k tx => row_at tx (advance w k)) txs)
              = inr s
  | (inl (Dashboard.ValidationError e), w') =>
      Dashboard.convert_to_transactions data = inl e /\ w' = w
  | (inl (Dashboard.Exception e), w') =>
      e = TypeError "can't subtract offset-naive and offset-aware datetimes"
      /\ exists txs,
           Dashboard.convert_to_transactions data = inr txs
           /\ Exists (fun u => Py.tzinfo (App.account_creation_date u) <> None) txs
  | (inl (Dashboard.FrameError e), w') =>
      e = Dashboard.KeyError "status" /\ data = [] /\ w' = w
  end.
Proof.
  unfold Dashboard.run.
  destruct (Dashboard.convert_to_transactions data) as [e|txs] eqn:Hconv;
    [now split|].
  pose proof (proj1 (convert_inr data txs) Hconv) as Hlen.
  apply Forall2_length in Hlen.
  destruct (naive_or_zoned txs) as [Hn|Hz].
  - rewrite (evaluate_loop_rows_at txs [] w Hn : App.evaluate_transactions _ _ _ = _).
    cbn [app]. destruct txs as [|tx txs].
    + cbn. destruct data; [|discriminate Hlen]. repeat split. apply advance_0.
    + cbn [imap Dashboard.summarize]. split; [now destruct data|].
      split; [now rewrite Hlen|]. exists (tx :: txs). now repeat split.
  - pose proof (evaluate_loop_zoned txs [] w Hz) as Hraise.
    unfold App.evaluate_transactions.
    destruct (App.evaluate_loop txs App.create_fraud_rules [] w) as [[rows|e] w'];
      cbn [fst] in Hraise; [discriminate Hraise|].
    injection Hraise as ->. split; [reflexivity|]. now exists txs.
Qed.

(** ** Validation, field by field *)

(** X19.  Keys of the request that are not declared fields are ignored: they
    change neither the Transaction nor the errors. *)
Theorem validate_ignores_extra (req : gmap string raw) (k : string) (v : raw)
    (Hk : ~ In k declared_fields) :
  Api.validate (<[k := v]> req) = Api.validate req
  /\ App.validate (<[k := v]> req) = App.validate req.
Proof.
  unfold Api.validate, App.validate.
  rewrite !field_insert_ne
    by (intros ->; apply Hk; unfold declared_fields, nine_fields; cbn; tauto).
  now split.
Qed.

Lemma validate_ignores_extra_witness :
  ~ In "currency" declared_fields
  /\ Api.validate (<["currency" := RStr "NGN"]> zoned_payload)
     = Api.validate zoned_payload.
Proof.
  assert (H : ~ In "currency" declared_fields).
  { unfold declared_fields, nine_fields. cbn.
    intros Hin. repeat (destruct Hin as [Hin|Hin]; [discriminate Hin|]). exact Hin. }
  split; [exact H|].
  exact (proj1 (validate_ignores_extra zoned_payload "currency" (RStr "NGN") H)).
Defined.

Lemma errors_of_vap {A B} (f : list error + (A -> B)) (x : list error + A) :
  errors_of (f <*> x) = (errors_of f ++ errors_of x)%list.
Proof. destruct f, x; cbn; now rewrite ?app_nil_r. Qed.

Lemma errors_of_field {A} (conv : raw -> option A) name req k kind :
  In (k, kind) (errors_of (field conv name req))
  <-> k = name
      /\ (kind = Missing /\ req !! name = None
          \/ kind = WrongType /\ exists v, req !! name = Some v /\ conv v = None).
Proof.
  unfold field. destruct (req !! name) as [v|]; [destruct (conv v) eqn:Hc|]; cbn.
  - split; [contradiction|]. intros (_ & [[_ H]|(_ & v' & [= <-] & H)]); congruence.
  - split.
    + intros [[= <- <-]|[]]. split; [reflexivity|]. right. eauto.
    + intros (-> & [[_ H]|[-> _]]); [discriminate H|now left].
  - split.
    + intros [[= <- <-]|[]]. split; [reflexivity|]. now left.
    + intros (-> & [[-> _]|(_ & v & H & _)]); [now left|discriminate H].
Qed.

Lemma errors_of_field_sublist {A} (conv : raw -> option A) name req :
  sublist (map fst (errors_of (field conv name req))) [name].
Proof.
  unfold field. destruct (req !! name) as [v|]; [destruct (conv v)|]; cbn;
    solve [reflexivity | apply sublist_nil_l].
Qed.

Lemma field_nonempty {A} (conv : raw -> option A) name req :
  field conv name req = inl [] -> False.
Proof.
  unfold field. destruct (req !! name) as [v|]; [destruct (conv v)|]; discriminate.
Qed.

Lemma vap_no_empty_error {A B} (f : list error + (A -> B)) (x : list error + A) :
  f <> inl [] -> x <> inl [] -> f <*> x <> inl [].
Proof.
  destruct f as [e|g], x as [e'|a]; cbn; try congruence.
  intros Hf _ [= H]. apply app_eq_nil in H as [-> _]. now apply Hf.
Qed.

Ltac in_declared :=
  unfold declared_fields, nine_fields; cbn [app In]; tauto.

Lemma validate_with_no_empty_error_api cv req :
  api_validate_with cv req <> inl [].
Proof.
  unfold api_validate_with.
  repeat (apply vap_no_empty_error;
          [|intros H; exact (field_nonempty _ _ _ H)]).
  discriminate.
Qed.

Lemma validate_with_no_empty_error_app cv req :
  app_validate_with cv req <> inl [].
Proof.
  unfold app_validate_with.
  repeat (apply vap_no_empty_error;
          [|intros H; exact (field_nonempty _ _ _ H)]).
  discriminate.
Qed.

Lemma errors_of_nil {A} (v : list error + A) :
  v <> inl [] -> (errors_of v = [] <-> exists a, v = inr a).
Proof.
  destruct v as [e|a]; cbn; intros Hv.
  - split; [intros ->; contradiction|intros [a [=]]].
  - split; [eauto|reflexivity].
Qed.

(** X20.  The errors a construction reports (none when it succeeds),
    whatever the conversions of the library accept, in either model: they
    are empty exactly when the construction succeeds; they name declared
    fields only, each at most once and in the order of declaration;
    "missing" is reported exactly for the declared fields absent from the
    request, all of them at once; and a type error is reported only for a
    field that is present.  [Api.validate] and [App.validate] are the
    instances with the standard conversions. *)
Theorem validate_errors (cv : conversions) (req : gmap string raw) :
  ((errors_of (api_validate_with cv req) = []
      <-> exists t, api_validate_with cv req = inr t)
   /\ sublist (map fst (errors_of (api_validate_with cv req))) declared_fields
   /\ (forall k, In (k, Missing) (errors_of (api_validate_with cv req))
                 <-> In k declared_fields /\ req !! k = None)
   /\ (forall k, In (k, WrongType) (errors_of (api_validate_with cv req))
                 -> In k declared_fields /\ is_Some (req !! k)))
  /\
  ((errors_of (app_validate_with cv req) = []
      <-> exists u, app_validate_with cv req = inr u)
   /\ sublist (map fst (errors_of (app_validate_with cv req))) declared_fields
   /\ (forall k, In (k, Missing) (errors_of (app_validate_with cv req))
                 <-> In k declared_fields /\ req !! k = None)
   /\ (forall k, In (k, WrongType) (errors_of (app_validate_with cv req))
                 -> In k declared_fields /\ is_Some (req !! k)))
  /\ Api.validate req = api_validate_with standard_conversions req
  /\ App.validate req = app_validate_with standard_conversions req.
Proof.
  split; [|split; [|split; reflexivity]].
  - split; [apply errors_of_nil, validate_with_no_empty_error_api|].
    unfold api_validate_with. rewrite !errors_of_vap. cbn [errors_of app].
    split; [|split].
    + rewrite !map_app, <- !app_assoc. unfold declared_fields, nine_fields. cbn [app].
      repeat (apply (sublist_app _ [_]); [apply errors_of_field_sublist|]).
      apply errors_of_field_sublist.
    + intros k. rewrite !in_app_iff, !errors_of_field.
      split.
      * intros H. decompose [and or ex] H; subst; try discriminate;
          (split; [in_declared|assumption]).
      * intros [Hk Hnone]. unfold declared_fields, nine_fields in Hk.
        cbn [app In] in Hk. decompose [or] Hk; subst; try contradiction; tauto.
    + intros k. rewrite !in_app_iff, !errors_of_field.
      intros H. decompose [and or ex] H; subst; try discriminate;
        (split; [in_declared|eauto]).
  - split; [apply errors_of_nil, validate_with_no_empty_error_app|].
    unfold app_validate_with. rewrite !errors_of_vap. cbn [errors_of app].
    split; [|split].
    + rewrite !map_app, <- !app_assoc. unfold declared_fields, nine_fields. cbn [app].
      repeat (apply (sublist_app _ [_]); [apply errors_of_field_sublist|]).
      apply errors_of_field_sublist.
    + intros k. rewrite !in_app_iff, !errors_of_field.
      split.
      * intros H. decompose [and or ex] H; subst; try discriminate;
          (split; [in_declared|assumption]).
      * intros [Hk Hnone]. unfold declared_fields, nine_fields in Hk.
        cbn [app In] in Hk. decompose [or] Hk; subst; try contradiction; tauto.
    + intros k. rewrite !in_app_iff, !errors_of_field.
      intros H. decompose [and or ex] H; subst; try discriminate;
        (split; [in_declared|eauto]).
Qed.

(** The errors of a request that fails in one model only, and of one that
    fails in both; a lenient conversion changes the type errors and not
    the missing fields. *)
Example validate_errors_samples :
  Api.validate labelled_payload = inl [("transaction_time_weekday", WrongType)]
  /\ App.validate labelled_payload
     = inr (App.mkTransaction "TXN002" 10000%float "web" "Android"
              (Py.naive (Py.mkdate 2024 11 17) noon) "Ibadan, Nigeria" 1
              (Py.naive (Py.mkdate 2024 11 17) noon) true "Sunday")
  /\ Api.validate ill_typed_payload
     = inl [("id", WrongType); ("transaction_time", WrongType);
            ("is_verified", Missing); ("transaction_time_weekday", Missing)]
  /\ errors_of (api_validate_with lenient_conversions
                  (<["is_verified" := RInt 1]> ill_typed_payload))
     = [("id", WrongType); ("transaction_time", WrongType);
        ("transaction_time_weekday", Missing)]
  /\ errors_of (api_validate_with standard_conversions
                  (<["is_verified" := RInt 1]> ill_typed_payload))
     = [("id", WrongType); ("transaction_time", WrongType);
        ("is_verified", WrongType); ("transaction_time_weekday", Missing)].
Proof. repeat split; vm_compute; reflexivity. Qed.

(** ** The two versions of R4 *)

(** X21.  On the time of day, in microseconds since midnight: R4 of the scoring
    API matches from 23:00:00 on and up to 05:00:00 included, R4 of the
    dashboard from 23:00:00 on and before 05:00:00. *)
Theorem R4_windows (t : Api.Transaction) (u : App.Transaction) (w : world)
    (Ht : Py.valid_time (Py.dt_time (Api.transaction_time t)) = true)
    (Hu : Py.valid_time (Py.dt_time (App.transaction_time u)) = true) :
  (matched Api.R4 t w = true <->
     82800000000 <= time_of_day (Py.dt_time (Api.transaction_time t))
     \/ time_of_day (Py.dt_time (Api.transaction_time t)) <= 18000000000)
  /\ (matched App.R4 u w = true <->
     82800000000 <= time_of_day (Py.dt_time (App.transaction_time u))
     \/ time_of_day (Py.dt_time (App.transaction_time u)) < 18000000000).
Proof. split; [now apply Api_R4_window|now apply App_R4_window]. Qed.

Lemma R4_windows_witness :
  Py.valid_time (Py.dt_time (Api.transaction_time five_tx)) = true
  /\ Py.valid_time (Py.dt_time (App.transaction_time eleven_row)) = true
  /\ (matched Api.R4 five_tx w2024 = true <->
      82800000000 <= time_of_day (Py.dt_time (Api.transaction_time five_tx))
      \/ time_of_day (Py.dt_time (Api.transaction_time five_tx)) <= 18000000000).
Proof.
  split; [reflexivity|]. split; [reflexivity|].
  exact (proj1 (R4_windows five_tx eleven_row w2024 eq_refl eq_refl)).
Defined.

Lemma R4_disagree_at_five_witness :
  App.transaction_time five_row = Api.transaction_time five_tx
  /\ (matched Api.R4 five_tx w2024 <> matched App.R4 five_row w2024
      <-> time_of_day (Py.dt_time (Api.transaction_time five_tx)) = 18000000000).
Proof.
  split; [reflexivity|].
  exact (R4_disagree_at_five five_tx five_row w2024 eq_refl eq_refl).
Defined.
